(** * cacophony-api: processing jobs, tag-mode queries and location precision

    A shallow embedding of the parts of the Cacophony API server that hand
    out processing jobs for recordings ([Recording.getOneForProcessing],
    the [/api/fileProcessing] handlers, [Recording.prototype.reprocess]),
    build the tag-mode condition of a recordings query
    ([Recording.queryBuilder.handleTagMode] and its helpers) and reduce the
    precision of a location ([Recording.makeFilterOptions],
    [Recording.prototype.filterData]); and of the parts that decide who may
    read, update or delete a recording ([getUserPermissions],
    [recordingsFor], [Recording.get], [updateOne], [deleteOne]) and that
    build the query of recordings ([Recording.queryBuilder.prototype.init]).

    Conventions.
    - A row of the [Recordings] table is a record; a nullable column is an
      [option], [None] being SQL NULL and JavaScript [null].  Where the
      source can hand JavaScript [undefined] to the ORM (an absent
      [newProcessedFileKey], no next job) this is written out: the ORM
      leaves such a column as it is.
    - Times are integers (milliseconds).  JavaScript numbers are idealised
      as rationals with NaN; no theorem here rests on how a double rounds.
    - The database is PostgreSQL (JSONB, GEOMETRY, SKIP LOCKED): NULL
      sorts first under ORDER BY ... DESC.
    - What the ORM does through code that is not in the repository
      (setters, casts, validators) is a field of [Backend]: the definitions
      and theorems that depend on it are parametric in it.
    - Every UPDATE the ORM issues for a recording also sets [updatedAt] to
      the clock ([touch]); the clock is an input wherever it is read.
    - The SQL text built by the query builder is represented by its syntax
      tree ([QueryBuilder.cond], [QueryBuilder.pred]).  The source puts a tag
      name between quotes without escaping it, so the tree is the reading of
      the text only for names that hold no quote ([QueryBuilder.plainName]);
      the theorems on what a condition built from names means assume it.
    - A query is run as its text reads: the rows that pass its WHERE, in
      its order, from the offset on and up to the limit ([runQuery]). *)

From Stdlib Require Import Bool List ZArith QArith Qminmax Lia Sorted.
From Stdlib Require Import Ascii String DecimalString.
Import ListNotations.

Local Open Scope string_scope.
Local Open Scope Z_scope.

Set Warnings "-register-all".

(* ------------------------------------------------------------------ *)
(** ** JavaScript values that cross the API: parsed JSON *)

Module Js.

Inductive JSON : Type :=
| JNull
| JBool (b : bool)
| JNum (q : Q)
| JStr (s : string)
| JArr (l : list JSON)
| JObj (l : list (string * JSON)).

(** An object as an ordered list of its own enumerable properties. *)
Definition Obj := list (string * JSON).

(** ToBoolean. *)
Definition truthy (v : JSON) : bool :=
  match v with
  | JNull => false
  | JBool b => b
  | JNum q => negb (Qeq_bool q 0)
  | JStr s => negb (String.eqb s "")
  | JArr _ | JObj _ => true
  end.

(** [o[k]] on an object given by its property list. *)
Fixpoint obj_get (k : string) (o : Obj) : option JSON :=
  match o with
  | [] => None
  | (k', v) :: o' => if String.eqb k k' then Some v else obj_get k o'
  end.

(** [o[k] = v]: an existing property keeps its place, a new one goes last. *)
Fixpoint obj_set (k : string) (v : JSON) (o : Obj) : Obj :=
  match o with
  | [] => [(k, v)]
  | (k', v') :: o' =>
      if String.eqb k k' then (k', v) :: o' else (k', v') :: obj_set k v o'
  end.

(** [v.k] for a parsed JSON value: only objects carry named properties. *)
Definition prop (k : string) (v : JSON) : option JSON :=
  match v with
  | JObj o => obj_get k o
  | _ => None
  end.

Definition index_name (n : nat) : string :=
  NilZero.string_of_uint (Nat.to_uint n).

Fixpoint indexed {A : Type} (n : nat) (l : list A) : list (string * A) :=
  match l with
  | [] => []
  | x :: l' => (index_name n, x) :: indexed (S n) l'
  end.

Fixpoint chars (s : string) : list JSON :=
  match s with
  | EmptyString => []
  | String c s' => JStr (String c EmptyString) :: chars s'
  end.

(** The (name, value) pairs visited by [for (const name in v)]. *)
Definition forIn (v : JSON) : list (string * JSON) :=
  match v with
  | JObj o => o
  | JArr l => indexed 0 l
  | JStr s => indexed 0 (chars s)
  | JNull | JBool _ | JNum _ => []
  end.

End Js.
Export Js.

(* ------------------------------------------------------------------ *)
(** ** Small helpers on options and promises *)

Definition opt_string_eqb (a b : option string) : bool :=
  match a, b with
  | Some x, Some y => String.eqb x y
  | None, None => true
  | _, _ => false
  end.

Definition is_null {A : Type} (a : option A) : bool :=
  match a with
  | None => true
  | Some _ => false
  end.

(** The outcome of a promise once settled. *)
Inductive Promise (A : Type) : Type :=
| Fulfilled (value : A)
| Rejected (reason : string).
Arguments Fulfilled {A} value.
Arguments Rejected {A} reason.

(** [p.catch(handler)]. *)
Definition promise_catch {A : Type} (p : Promise A) (handler : string -> A)
  : Promise A :=
  match p with
  | Fulfilled v => Fulfilled v
  | Rejected e => Fulfilled (handler e)
  end.

(* ------------------------------------------------------------------ *)
(** ** The Recording model (src/models/Recording.js) *)

(** A JavaScript number: a rational, or NaN ([None]). *)
Definition number := option Q.

(** [location]: a geometry with its [coordinates] array. *)
Record Point : Type := mkPoint { coordinates : list number }.

(** A row of the table.  The columns the processing protocol and the
    precision filter read or write are fields; [others] holds the remaining
    attributes by name. *)
Record Recording : Type := mkRecording {
  id : Z;
  type : option string;
  recordingDateTime : option Z;
  location : option Point;
  additionalMetadata : option Obj;
  fileKey : option string;
  processingStartTime : option Z;
  processingState : option string;
  jobKey : option string;
  others : Obj
}.

(** What the ORM decides through code that is not in the repository. *)
Record Backend : Type := mkBackend {
  (** value written to a STRING column for a JSON value that is neither a
      string nor null *)
  castString : JSON -> option string;
  (** value written to a DATE column for a JSON value that is not null *)
  castDate : JSON -> option Z;
  (** [util.geometrySetter], the setter of [location] *)
  geometrySetter : JSON -> option Point;
  (** [Dottie.set] below a JSON attribute: the path, the value to put
      there, and the attribute before (JSON null when it is null) give the
      attribute afterwards *)
  setPath : string -> JSON -> JSON -> JSON;
  (** whether applying these field updates to the instance and saving it
      fails: a setter throws, a validator ([isLatLon], the type checks of
      the ORM) refuses a value, or the database does *)
  updatesFail : JSON -> Recording -> bool
}.

(** Names of the attributes kept in [others]. *)
Definition otherAttributes : list string :=
  [ "duration"; "relativeToDawn"; "relativeToDusk"; "version"; "comment";
    "public"; "rawFileKey"; "rawMimeType"; "fileMimeType"; "processingMeta";
    "passedFilter"; "batteryLevel"; "batteryCharging"; "airplaneModeOn";
    "GroupId"; "DeviceId"; "createdAt"; "updatedAt" ].

(** Names of all the attributes: what an instance loaded whole holds. *)
Definition attributeNames : list string :=
  [ "id"; "type"; "recordingDateTime"; "location"; "additionalMetadata";
    "fileKey"; "processingStartTime"; "processingState"; "jobKey" ]
  ++ otherAttributes.

Definition mem_string (s : string) (l : list string) : bool :=
  existsb (String.eqb s) l.

Definition with_type v r :=
  mkRecording (id r) v (recordingDateTime r) (location r)
    (additionalMetadata r) (fileKey r) (processingStartTime r)
    (processingState r) (jobKey r) (others r).
Definition with_recordingDateTime v r :=
  mkRecording (id r) (type r) v (location r)
    (additionalMetadata r) (fileKey r) (processingStartTime r)
    (processingState r) (jobKey r) (others r).
Definition with_location v r :=
  mkRecording (id r) (type r) (recordingDateTime r) v
    (additionalMetadata r) (fileKey r) (processingStartTime r)
    (processingState r) (jobKey r) (others r).
Definition with_additionalMetadata v r :=
  mkRecording (id r) (type r) (recordingDateTime r) (location r)
    v (fileKey r) (processingStartTime r)
    (processingState r) (jobKey r) (others r).
Definition with_fileKey v r :=
  mkRecording (id r) (type r) (recordingDateTime r) (location r)
    (additionalMetadata r) v (processingStartTime r)
    (processingState r) (jobKey r) (others r).
Definition with_processingStartTime v r :=
  mkRecording (id r) (type r) (recordingDateTime r) (location r)
    (additionalMetadata r) (fileKey r) v
    (processingState r) (jobKey r) (others r).
Definition with_processingState v r :=
  mkRecording (id r) (type r) (recordingDateTime r) (location r)
    (additionalMetadata r) (fileKey r) (processingStartTime r)
    v (jobKey r) (others r).
Definition with_jobKey v r :=
  mkRecording (id r) (type r) (recordingDateTime r) (location r)
    (additionalMetadata r) (fileKey r) (processingStartTime r)
    (processingState r) v (others r).
Definition with_others v r :=
  mkRecording (id r) (type r) (recordingDateTime r) (location r)
    (additionalMetadata r) (fileKey r) (processingStartTime r)
    (processingState r) (jobKey r) v.

(** [instance.set(name, value)] with a value that may be JavaScript
    [undefined] (here [None]): the instance then holds [undefined], which
    [save] does not write, so the column stays as it is. *)
Definition setIfDefined {A : Type} (with_ : option A -> Recording -> Recording)
    (v : option A) (r : Recording) : Recording :=
  match v with
  | Some x => with_ (Some x) r
  | None => r
  end.

(** The timestamp of the ORM: an UPDATE sets [updatedAt] to the clock. *)
Definition touch (savedAt : Z) (r : Recording) : Recording :=
  with_others (obj_set "updatedAt" (JNum (inject_Z savedAt)) (others r)) r.

(** The part of a name before its first dot and the part after it; [None]
    for a name without a dot. *)
Fixpoint splitAtDot (s : string) : option (string * string) :=
  match s with
  | EmptyString => None
  | String c s' =>
      if Ascii.eqb c "." then Some (EmptyString, s')
      else match splitAtDot s' with
           | Some (before, after) => Some (String c before, after)
           | None => None
           end
  end.

Section Model.

Variable B : Backend.

Definition toStringColumn (v : JSON) : option string :=
  match v with
  | JStr s => Some s
  | JNull => None
  | _ => castString B v
  end.

Definition toDateColumn (v : JSON) : option Z :=
  match v with
  | JNull => None
  | _ => castDate B v
  end.

Definition toJsonColumn (v : JSON) : option Obj :=
  match v with
  | JObj o => Some o
  | _ => None
  end.

Definition jsonOfObj (o : option Obj) : JSON :=
  match o with
  | Some m => JObj m
  | None => JNull
  end.

(** [recording.set(name, value)] with a value that came from parsed JSON.
    The primary key of a stored row is not set.  A name that is not an
    attribute of the model is ignored, unless it is a dotted path whose
    first part names a JSON attribute ([additionalMetadata] or
    [processingMeta]): the value is then put at that path below the
    attribute. *)
Definition set (name : string) (v : JSON) (r : Recording) : Recording :=
  if String.eqb name "type" then with_type (toStringColumn v) r
  else if String.eqb name "recordingDateTime"
       then with_recordingDateTime (toDateColumn v) r
  else if String.eqb name "location" then with_location (geometrySetter B v) r
  else if String.eqb name "additionalMetadata"
       then with_additionalMetadata (toJsonColumn v) r
  else if String.eqb name "fileKey" then with_fileKey (toStringColumn v) r
  else if String.eqb name "processingStartTime"
       then with_processingStartTime (toDateColumn v) r
  else if String.eqb name "processingState"
       then with_processingState (toStringColumn v) r
  else if String.eqb name "jobKey" then with_jobKey (toStringColumn v) r
  else if mem_string name otherAttributes
       then with_others (obj_set name v (others r)) r
  else
    match splitAtDot name with
    | Some (attribute, path) =>
        if String.eqb attribute "additionalMetadata"
        then with_additionalMetadata
               (toJsonColumn
                  (setPath B path v (jsonOfObj (additionalMetadata r)))) r
        else if String.eqb attribute "processingMeta"
        then with_others
               (obj_set "processingMeta"
                  (setPath B path v
                     (match obj_get "processingMeta" (others r) with
                      | Some old => old
                      | None => JNull
                      end))
                  (others r)) r
        else r
    | None => r
    end.

(** [Recording.prototype.mergeAdditionalMetadata]. *)
Definition mergeAdditionalMetadata (newValues : JSON) (r : Recording)
  : Recording :=
  let meta := match additionalMetadata r with
              | Some m => m
              | None => []
              end in
  let meta' := fold_left (fun m kv => obj_set (fst kv) (snd kv) m)
                         (forIn newValues) meta in
  with_additionalMetadata (Some meta') r.

(** [Recording.prototype.mergeUpdate]. *)
Definition mergeUpdate (newValues : JSON) (r : Recording) : Recording :=
  fold_left
    (fun r kv =>
       let name := fst kv in
       let newValue := snd kv in
       if String.eqb name "additionalMetadata"
       then mergeAdditionalMetadata newValue r
       else set name newValue r)
    (forIn newValues) r.

(** [Recording.processingStates]: the ordered jobs of a recording type;
    [None] where the lookup gives [undefined]. *)
Definition processingStates (ty : option string) : option (list string) :=
  match ty with
  | Some t =>
      if String.eqb t "thermalRaw" then Some ["getMetadata"; "toMp4"; "FINISHED"]
      else if String.eqb t "audio" then Some ["toMp3"; "FINISHED"]
      else None
  | None => None
  end.

(** [Recording.processingAttributes]. *)
Definition processingAttributes : list string :=
  [ "id"; "type"; "jobKey"; "rawFileKey"; "rawMimeType"; "fileKey";
    "fileMimeType"; "processingState"; "processingMeta" ].

(** The instance [findOne] builds when asked for [processingAttributes]
    only: the other attributes are not loaded. *)
Definition selectProcessingAttributes (r : Recording) : Recording :=
  mkRecording (id r) (type r) None None None (fileKey r) None
    (processingState r) (jobKey r)
    (filter (fun kv => mem_string (fst kv) processingAttributes) (others r)).

(** ** The table of recordings *)

Definition Recordings := list Recording.

(** [findOne({ where: { id } })]. *)
Definition findById (i : Z) (db : Recordings) : option Recording :=
  find (fun r => Z.eqb (id r) i) db.

(** The WHERE clause of [getOneForProcessing]. *)
Definition claimable (ty st : string) (r : Recording) : bool :=
  opt_string_eqb (type r) (Some ty)
  && opt_string_eqb (processingState r) (Some st)
  && is_null (processingStartTime r).

(** [a] sorts strictly before [b] under ORDER BY ... DESC: the later date
    first, and NULL before every date. *)
Definition desc_before (a b : option Z) : bool :=
  match a, b with
  | Some x, Some y => Z.ltb y x
  | None, Some _ => true
  | Some _, None => false
  | None, None => false
  end.

(** The first row of a non-empty result under the DESC ordering. *)
Fixpoint first_desc (best : Recording) (rows : Recordings) : Recording :=
  match rows with
  | [] => best
  | r :: rows' =>
      first_desc
        (if desc_before (recordingDateTime r) (recordingDateTime best)
         then r else best)
        rows'
  end.

(** The locked SELECT of [getOneForProcessing], run alone. *)
Definition findOneForProcessing (ty st : string) (db : Recordings)
  : option Recording :=
  match filter (claimable ty st) db with
  | [] => None
  | r :: rows => Some (first_desc r rows)
  end.

(** UPDATE ... WHERE id = [i]: [change] is what the statement does to a
    row. *)
Definition updateWhereId (i : Z) (change : Recording -> Recording)
    (db : Recordings) : Recordings :=
  map (fun r => if Z.eqb (id r) i then change r else r) db.

(** The UPDATE issued for the claim: the two changed columns of the row,
    and [updatedAt]. *)
Definition saveClaim (i : Z) (key : string) (now savedAt : Z)
    (db : Recordings) : Recordings :=
  updateWhereId i
    (fun r => touch savedAt
                (with_processingStartTime (Some now)
                   (with_jobKey (Some key) r))) db.

(** [instance.save()] of an instance that was loaded whole from the row
    with its id and has a changed attribute: the row becomes the instance,
    with [updatedAt] the clock. *)
Definition save (savedAt : Z) (r : Recording) (db : Recordings)
  : Recordings :=
  updateWhereId (id r) (fun _ => touch savedAt r) db.

(** The body of the transaction in [Recording.getOneForProcessing].
    [dbError] is an error of the database, if one occurs; [uuid] is the
    value of [uuidv4()], [now] the clock read by [new Date()] and [savedAt]
    the clock read by [save].  A rejected transaction is rolled back.  The
    source does not await [recording.save]; here its UPDATE is part of the
    transaction. *)
Definition claimTransaction (dbError : option string) (uuid : string)
    (now savedAt : Z) (ty st : string) (db : Recordings)
  : Promise Recording * Recordings :=
  match dbError with
  | Some e => (Rejected e, db)
  | None =>
      match findOneForProcessing ty st db with
      | None => (Rejected "TypeError: Cannot read property 'set' of null", db)
      | Some found =>
          let recording :=
            touch savedAt
              (with_processingStartTime (Some now)
                 (with_jobKey (Some uuid) (selectProcessingAttributes found))) in
          (Fulfilled recording, saveClaim (id found) uuid now savedAt db)
      end
  end.

(** [Recording.getOneForProcessing]. *)
Definition getOneForProcessing (dbError : option string) (uuid : string)
    (now savedAt : Z) (ty st : string) (db : Recordings)
  : Promise (option Recording) * Recordings :=
  let (p, db') := claimTransaction dbError uuid now savedAt ty st db in
  (promise_catch
     (match p with
      | Fulfilled r => Fulfilled (Some r)
      | Rejected e => Rejected e
      end)
     (fun _ => None),
   db').

(** ** The tables of tags and tracks *)

(** A row of [Tags]: the columns the model reads, and the remaining
    attributes by name. *)
Record Tag : Type := mkTag {
  tag_RecordingId : option Z;
  tag_what : option string;
  tag_detail : option string;
  tag_automatic : option bool;
  tag_others : Obj
}.

Record Track : Type := mkTrack {
  track_id : Z;
  track_RecordingId : option Z;
  archivedAt : option Z
}.

Record TrackTag : Type := mkTrackTag {
  tracktag_TrackId : option Z;
  tracktag_what : option string;
  tracktag_automatic : option bool
}.

Record Database : Type := mkDatabase {
  RecordingsTable : Recordings;
  Tags : list Tag;
  Tracks : list Track;
  TrackTags : list TrackTag
}.

Definition opt_Z_eqb (a : option Z) (b : Z) : bool :=
  match a with
  | Some x => Z.eqb x b
  | None => false
  end.

Definition jsonOfString (s : option string) : JSON :=
  match s with
  | Some x => JStr x
  | None => JNull
  end.

Definition jsonOfBool (b : option bool) : JSON :=
  match b with
  | Some x => JBool x
  | None => JNull
  end.

Definition jsonOfZ (z : option Z) : JSON :=
  match z with
  | Some x => JNum (inject_Z x)
  | None => JNull
  end.

(** A tag as it is serialised into [additionalMetadata.oldTags]: the whole
    row (a JSONB column keeps no order of keys). *)
Definition tagToJSON (t : Tag) : JSON :=
  JObj ([ ("RecordingId", jsonOfZ (tag_RecordingId t));
          ("what", jsonOfString (tag_what t));
          ("detail", jsonOfString (tag_detail t));
          ("automatic", jsonOfBool (tag_automatic t)) ]
        ++ tag_others t).

(** [additionalMetadata] with the tags kept under [oldTags]. *)
Definition withOldTags (tags : list Tag) (meta : option Obj) : option Obj :=
  Some (obj_set "oldTags" (JArr (map tagToJSON tags))
          (match meta with
           | Some m => m
           | None => []
           end)).

(** Whether [this.update({processingStartTime: null, processingState:
    state})] finds an attribute changed, so that an UPDATE is issued: the
    value given differs from the one the instance holds, which is
    [undefined] for an attribute the instance was not loaded with. *)
Definition resetChanges (attributes : list string) (state : option string)
    (this : Recording) : bool :=
  negb (mem_string "processingStartTime" attributes)
  || negb (is_null (processingStartTime this))
  || match state with
     | Some s =>
         negb (mem_string "processingState" attributes)
         || negb (opt_string_eqb (processingState this) (Some s))
     | None => false
     end.

(** [Recording.prototype.reprocess], on the instance [this], which was
    loaded with the attributes named in [attributes] (an attribute it was
    not loaded with is [None] in [this]).  [now] is [Date.now()];
    [savedAt1] and [savedAt2] are the clock at [this.save()] and at
    [this.update(...)].  Each of the two writes the columns of its changed
    attributes, and [updatedAt], to the row with the id of the instance.
    The result is the instance afterwards. *)
Definition reprocess (now savedAt1 savedAt2 : Z) (attributes : list string)
    (this : Recording) (db : Database)
  : Promise Recording * Database :=
  let tags := filter (fun t => opt_Z_eqb (tag_RecordingId t) (id this))
                     (Tags db) in
  let meta := withOldTags tags (additionalMetadata this) in
  let this1 :=
    if (0 <? Z.of_nat (List.length tags))
    then touch savedAt1 (with_additionalMetadata meta this)
    else this in
  let recordings1 :=
    if (0 <? Z.of_nat (List.length tags))
    then updateWhereId (id this)
           (fun row => touch savedAt1 (with_additionalMetadata meta row))
           (RecordingsTable db)
    else RecordingsTable db in
  let tags2 :=
    filter (fun t => negb (opt_Z_eqb (tag_RecordingId t) (id this)))
           (Tags db) in
  let tracks3 :=
    map (fun tr =>
           if opt_Z_eqb (track_RecordingId tr) (id this)
              && is_null (archivedAt tr)
           then mkTrack (track_id tr) (track_RecordingId tr) (Some now)
           else tr)
        (Tracks db) in
  match processingStates (type this) with
  | None =>
      (Rejected "TypeError: Cannot read property '0' of undefined",
       mkDatabase recordings1 tags2 tracks3 (TrackTags db))
  | Some jobs =>
      let state := nth_error jobs 0 in
      let reset :=
        fun r => touch savedAt2
                   (setIfDefined with_processingState state
                      (with_processingStartTime None r)) in
      let recordings2 :=
        if resetChanges attributes state this
        then updateWhereId (id this) reset recordings1
        else recordings1 in
      (Fulfilled (reset this1),
       mkDatabase recordings2 tags2 tracks3 (TrackTags db))
  end.

(* ---------------------------------------------------------------- *)
(** ** PUT /api/fileProcessing (src/unnamed/part_000) *)

(** What the handler answers. [Unhandled] is an exception that leaves the
    handler: no response is sent. *)
Inductive Response : Type :=
| Json (status : Z) (messages : list string)
| Unhandled (error : string).

(** [request.body.result]: absent, text that [JSON.parse] refuses, or text
    that parses. *)
Inductive ResultField : Type :=
| NoResult
| BadJson
| ParsedJson (v : JSON).

(** The body of the request after [parseInt] and [middleware.parseBool]:
    [None] is [NaN] for [body_id], null or a missing field for
    [body_jobKey], [body_success] and [body_complete], and a missing field
    ([undefined]) for [body_newProcessedFileKey]. *)
Record PutBody : Type := mkPutBody {
  body_id : option Z;
  body_jobKey : option string;
  body_success : option bool;
  body_result : ResultField;
  body_complete : option bool;
  body_newProcessedFileKey : option string
}.

(** [jobs.indexOf(x)]. *)
Fixpoint indexOf (x : option string) (jobs : list string) : Z :=
  match jobs with
  | [] => -1
  | j :: jobs' =>
      if opt_string_eqb x (Some j) then 0
      else
        let i := indexOf x jobs' in
        if i <? 0 then -1 else i + 1
  end.

(** [jobs[i]]: undefined outside the array. *)
Definition at_index (jobs : list string) (i : Z) : option string :=
  if i <? 0 then None else nth_error jobs (Z.to_nat i).

(** [jobs[jobs.indexOf(state) + 1]]. *)
Definition nextJob (jobs : list string) (state : option string)
  : option string :=
  at_index jobs (indexOf state jobs + 1).

Definition bool_truthy (b : option bool) : bool :=
  match b with
  | Some true => true
  | _ => false
  end.

(** [result && result.fieldUpdates]. *)
Definition fieldUpdatesOf (result : option JSON) : option JSON :=
  match result with
  | Some v =>
      if truthy v then
        match prop "fieldUpdates" v with
        | Some u => if truthy u then Some u else None
        | None => None
        end
      else None
  | None => None
  end.

Definition jobKeyMismatch : string :=
  "'jobKey' given did not match the database..".

(** The handler after request validation (lines 80-114).  [savedAt] is
    the clock read by [save]; [newProcessedFileKey] is [None] when the
    request has none ([undefined]), and so is [nextJob] when the job list
    has no such element. *)
Definition report (savedAt : Z) (i : Z) (key : string) (success : bool)
    (result : option JSON) (complete : option bool)
    (newProcessedFileKey : option string) (db : Recordings)
  : Response * Recordings :=
  match findById i db with
  | None => (Unhandled "TypeError: Cannot read property 'get' of null", db)
  | Some recording =>
      if negb (opt_string_eqb (Some key) (jobKey recording))
      then (Json 400 [jobKeyMismatch], db)
      else if success then
        match processingStates (type recording) with
        | None =>
            (Unhandled "TypeError: Cannot read property 'indexOf' of undefined",
             db)
        | Some jobs =>
            let nextJob := nextJob jobs (processingState recording) in
            let r1 := setIfDefined with_processingState nextJob recording in
            let r2 := setIfDefined with_fileKey newProcessedFileKey r1 in
            let r3 := if bool_truthy complete
                      then with_processingStartTime None (with_jobKey None r2)
                      else r2 in
            match fieldUpdatesOf result with
            | Some fieldUpdates =>
                if updatesFail B fieldUpdates r3
                then (Unhandled "Error: mergeUpdate or save failed", db)
                else (Json 200 ["Processing finished."],
                      save savedAt (mergeUpdate fieldUpdates r3) db)
            | None => (Json 200 ["Processing finished."], save savedAt r3 db)
            end
        end
      else
        let r1 := with_processingStartTime None recording in
        let r2 := with_jobKey None r1 in
        (Json 200 ["Processing failed."], save savedAt r2 db)
  end.

(** The messages collected by the validation of the request. *)
Definition errorMessages (body : PutBody) : list string :=
  (if is_null (body_id body)
   then ["'id' field needs to be a number."] else [])
  ++ (if is_null (body_jobKey body)
      then ["'jobKey' field is required."] else [])
  ++ (if is_null (body_success body)
      then ["'success' field is required"] else [])
  ++ (match body_result body with
      | BadJson => ["'result' field was not a valid JSON."]
      | _ => []
      end).

(** The whole handler of PUT /api/fileProcessing. *)
Definition putFileProcessing (savedAt : Z) (body : PutBody)
    (db : Recordings) : Response * Recordings :=
  match errorMessages body with
  | _ :: _ => (Json 400 (errorMessages body), db)
  | [] =>
      match body_id body, body_jobKey body, body_success body with
      | Some i, Some key, Some success =>
          report savedAt i key success
            (match body_result body with
             | ParsedJson v => Some v
             | _ => None
             end)
            (body_complete body) (body_newProcessedFileKey body) db
      | _, _, _ => (Json 400 (errorMessages body), db)
      end
  end.

End Model.

(* ------------------------------------------------------------------ *)
(** ** The tag-mode condition (Recording.queryBuilder) *)

Module QueryBuilder.

(** A condition on one row, in the WHERE clause of a sub-select whose rows
    are named ["Tags"] (the table [Tags], or [TrackTags] under that alias).
    [ColEq col lit] stands for the text ["Tags"."col" = 'lit'], which the
    source builds by putting the name [lit] between two quotes. *)
Inductive cond : Type :=
| CNull                                (* null *)
| ColIsNull (col : string)             (* "Tags"."col" IS NULL *)
| ColEq (col : string) (lit : string)  (* "Tags"."col" = 'lit' *)
| ColNe (col : string) (lit : string)  (* "Tags"."col"!='lit' *)
| Automatic                            (* "Tags".automatic *)
| Not (c : cond)                       (* NOT c *)
| And (a b : cond)                     (* a AND b *)
| Or (a b : cond).                     (* a OR b *)

(** The two sub-selects.  [where_] lists the parenthesised conditions that
    follow the fixed part of the WHERE clause, joined by AND.
    - [FromTags]: SELECT "Recording"."id" FROM "Tags"
      WHERE "Tags"."RecordingId" = "Recording".id
    - [FromTrackTags]: SELECT "Recording"."id" FROM "Tracks"
      INNER JOIN "TrackTags" AS "Tags" ON "Tracks"."id" = "Tags"."TrackId"
      WHERE "Tracks"."RecordingId" = "Recording".id
      AND "Tracks"."archivedAt" IS NULL *)
Inductive query : Type :=
| FromTags (where_ : list cond)
| FromTrackTags (where_ : list cond).

(** A condition on a recording, as it goes into the query's WHERE. *)
Inductive pred : Type :=
| PEmpty                      (* the empty text: no condition *)
| Exists (q : query)          (* EXISTS (q) *)
| PNot (p : pred)             (* NOT p *)
| PAnd (a b : pred)           (* a AND b *)
| POr (a b : pred).           (* a OR b *)

(** A value returned, or an exception thrown. *)
Inductive Outcome (A : Type) : Type :=
| Returned (value : A)
| Thrown (message : string).
Arguments Returned {A} value.
Arguments Thrown {A} message.

(** A name that the text can hold between quotes as it is: it has no
    quote, which would end the literal, no backslash, which escapes in a
    literal on a server with [standard_conforming_strings] off, and no
    character of code 0, which the server refuses.  For such a name the
    text ['name'] is the literal [name]; for another one the text the
    source builds is not the condition of the tree. *)
Definition plainChar (c : ascii) : bool :=
  negb (Ascii.eqb c "'" || Ascii.eqb c (ascii_of_nat 92)
        || Ascii.eqb c Ascii.zero).

Fixpoint plainName (s : string) : bool :=
  match s with
  | EmptyString => true
  | String c s' => plainChar c && plainName s'
  end.

Definition plainNames (names : option (list string)) : bool :=
  match names with
  | Some l => forallb plainName l
  | None => true
  end.

(** [parts.join(" OR ")] for a non-empty array of parts. *)
Definition joinOr (parts : list cond) : option cond :=
  match parts with
  | [] => None
  | p :: ps => Some (fold_left Or ps p)
  end.

(** The parts pushed for one tag by the loop of [selectByTagWhat]. *)
Definition partsFor (tag whatName : string) (usesDetail : bool) : list cond :=
  if String.eqb tag "interesting" then
    if usesDetail then
      [ And (Or (ColIsNull whatName) (ColNe whatName "bird"))
            (Or (ColIsNull "detail") (ColNe "detail" "false positive")) ]
    else
      [ And (ColNe whatName "bird") (ColNe whatName "false positive") ]
  else
    ColEq whatName tag
    :: (if usesDetail then [ColEq "detail" tag] else []).

(** [Recording.queryBuilder.selectByTagWhat]; [None] is its null. *)
Definition selectByTagWhat (tags : option (list string)) (whatName : string)
    (usesDetail : bool) : option cond :=
  match tags with
  | None | Some [] => None
  | Some ts => joinOr (flat_map (fun tag => partsFor tag whatName usesDetail) ts)
  end.

(** The conditions appended by [recordingTaggedWith] and [trackTaggedWith]:
    [" AND (" + selectByTagWhat(...) + ")"] if [tags] is truthy, then
    [" AND (" + tagTypeSql + ")"] if [tagTypeSql] is. *)
Definition appended (tags : option (list string)) (usesDetail : bool)
    (tagTypeSql : option cond) : list cond :=
  (match tags with
   | Some _ =>
       [ match selectByTagWhat tags "what" usesDetail with
         | Some c => c
         | None => CNull
         end ]
   | None => []
   end)
  ++ (match tagTypeSql with
      | Some c => [c]
      | None => []
      end).

(** [Recording.queryBuilder.recordingTaggedWith]. *)
Definition recordingTaggedWith (tags : option (list string))
    (tagTypeSql : option cond) : query :=
  FromTags (appended tags true tagTypeSql).

(** [Recording.queryBuilder.trackTaggedWith]. *)
Definition trackTaggedWith (tags : option (list string))
    (tagTypeSql : option cond) : query :=
  FromTrackTags (appended tags false tagTypeSql).

(** [Recording.queryBuilder.tagOfType]. *)
Definition tagOfType (tagWhats : option (list string))
    (tagTypeSql : option cond) : pred :=
  POr (Exists (recordingTaggedWith tagWhats tagTypeSql))
      (Exists (trackTaggedWith tagWhats tagTypeSql)).

(** [Recording.queryBuilder.notTagOfType]. *)
Definition notTagOfType (tagWhats : option (list string))
    (tagTypeSql : option cond) : pred :=
  PAnd (PNot (Exists (recordingTaggedWith tagWhats tagTypeSql)))
       (PNot (Exists (trackTaggedWith tagWhats tagTypeSql))).

Definition humanSQL : cond := Not Automatic.
Definition AISQL : cond := Automatic.

(** [validTagModes]. *)
Definition validTagModes : list string :=
  [ "any"; "untagged"; "tagged"; "human-tagged"; "automatic-tagged";
    "both-tagged"; "no-human"; "automatic-only"; "human-only";
    "automatic+human"; "missed track"; "multiple animals";
    "trapped in trap"; "cool" ].

(** [Recording.isValidTagMode]. *)
Definition isValidTagMode (mode : string) : bool :=
  mem_string mode validTagModes.

(** [Recording.queryBuilder.handleTagMode].  [tagMode] and [tagWhatsIn] are
    [None] when the caller passes nothing. *)
Definition handleTagMode (tagMode : option string)
    (tagWhatsIn : option (list string)) : Outcome pred :=
  let tagWhats := match tagWhatsIn with
                  | Some (t :: ts) => Some (t :: ts)
                  | _ => None
                  end in
  let tagMode := match tagMode with
                 | Some m => if String.eqb m "" then None else Some m
                 | None => None
                 end in
  let tagMode := match tagMode with
                 | Some m => m
                 | None => if is_null tagWhats then "any" else "tagged"
                 end in
  if String.eqb tagMode "any" then Returned PEmpty
  else if String.eqb tagMode "untagged"
  then Returned (notTagOfType tagWhats None)
  else if String.eqb tagMode "tagged"
  then Returned (tagOfType tagWhats None)
  else if String.eqb tagMode "human-tagged"
  then Returned (tagOfType tagWhats (Some humanSQL))
  else if String.eqb tagMode "automatic-tagged"
  then Returned (tagOfType tagWhats (Some AISQL))
  else if String.eqb tagMode "both-tagged"
  then Returned (PAnd (tagOfType tagWhats (Some humanSQL))
                      (tagOfType tagWhats (Some AISQL)))
  else if String.eqb tagMode "no-human"
  then Returned (notTagOfType tagWhats (Some humanSQL))
  else if String.eqb tagMode "automatic-only"
  then Returned (PAnd (tagOfType tagWhats (Some AISQL))
                      (notTagOfType tagWhats (Some humanSQL)))
  else if String.eqb tagMode "human-only"
  then Returned (PAnd (tagOfType tagWhats (Some humanSQL))
                      (notTagOfType tagWhats (Some AISQL)))
  else if String.eqb tagMode "automatic+human"
  then Returned (PAnd (tagOfType tagWhats (Some humanSQL))
                      (tagOfType tagWhats (Some AISQL)))
  else if String.eqb tagMode "cool"
       || String.eqb tagMode "missed track"
       || String.eqb tagMode "multiple animals"
       || String.eqb tagMode "trapped in trap"
  then
    let sqlQuery := Exists (recordingTaggedWith (Some [tagMode]) None) in
    Returned (if is_null tagWhats then sqlQuery
              else PAnd sqlQuery (tagOfType tagWhats None))
  else Thrown ("invalid tag mode: " ++ tagMode).

(** *** What the conditions mean on a database *)

(** SQL truth values: [None] is unknown (NULL). *)
Definition truth := option bool.

Definition not3 (a : truth) : truth := option_map negb a.

Definition and3 (a b : truth) : truth :=
  match a, b with
  | Some false, _ | _, Some false => Some false
  | Some true, Some true => Some true
  | _, _ => None
  end.

Definition or3 (a b : truth) : truth :=
  match a, b with
  | Some true, _ | _, Some true => Some true
  | Some false, Some false => Some false
  | _, _ => None
  end.

(** A WHERE clause keeps a row when its condition is true. *)
Definition holds (a : truth) : bool :=
  match a with
  | Some true => true
  | _ => false
  end.

(** The columns of a ["Tags"] row the conditions can name. *)
Record TagRow : Type := mkTagRow {
  what : option string;
  detail : option string;
  automatic : option bool
}.

Definition tagRow (t : Tag) : TagRow :=
  mkTagRow (tag_what t) (tag_detail t) (tag_automatic t).

(** [TrackTags] has no [detail] column that the builder names. *)
Definition trackTagRow (t : TrackTag) : TagRow :=
  mkTagRow (tracktag_what t) None (tracktag_automatic t).

Definition column (col : string) (row : TagRow) : option string :=
  if String.eqb col "what" then what row
  else if String.eqb col "detail" then detail row
  else None.

Fixpoint evalCond (c : cond) (row : TagRow) : truth :=
  match c with
  | CNull => None
  | ColIsNull col => Some (is_null (column col row))
  | ColEq col lit => option_map (fun v => String.eqb v lit) (column col row)
  | ColNe col lit =>
      option_map (fun v => negb (String.eqb v lit)) (column col row)
  | Automatic => automatic row
  | Not c' => not3 (evalCond c' row)
  | And a b => and3 (evalCond a row) (evalCond b row)
  | Or a b => or3 (evalCond a row) (evalCond b row)
  end.

(** All the appended conditions hold: they are joined by AND. *)
Definition allHold (cs : list cond) (row : TagRow) : bool :=
  holds (fold_left and3 (map (fun c => evalCond c row) cs) (Some true)).

(** Whether the sub-select returns a row for the recording [rid]. *)
Definition nonEmpty (db : Database) (rid : Z) (q : query) : bool :=
  match q with
  | FromTags cs =>
      existsb (fun t => opt_Z_eqb (tag_RecordingId t) rid
                        && allHold cs (tagRow t))
              (Tags db)
  | FromTrackTags cs =>
      existsb
        (fun tr =>
           opt_Z_eqb (track_RecordingId tr) rid
           && is_null (archivedAt tr)
           && existsb (fun tt => opt_Z_eqb (tracktag_TrackId tt) (track_id tr)
                                 && allHold cs (trackTagRow tt))
                      (TrackTags db))
        (Tracks db)
  end.

(** Whether the recording [rid] satisfies the condition. *)
Fixpoint evalPred (db : Database) (rid : Z) (p : pred) : bool :=
  match p with
  | PEmpty => true
  | Exists q => nonEmpty db rid q
  | PNot p' => negb (evalPred db rid p')
  | PAnd a b => evalPred db rid a && evalPred db rid b
  | POr a b => evalPred db rid a || evalPred db rid b
  end.

(** Whether a name of the filter matches a tag, in the words of the
    specification: ["interesting"] matches a tag whose [what] is not
    ["bird"] (and, for recording-level tags only, whose [detail] is not
    ["false positive"]); another name matches [what] equal to the name and,
    for recording-level tags only, [detail] equal to the name. *)
Definition nameMatchesSpec (usesDetail : bool) (name : string) (row : TagRow)
  : bool :=
  if String.eqb name "interesting" then
    negb (opt_string_eqb (what row) (Some "bird"))
    && (negb usesDetail
        || negb (opt_string_eqb (detail row) (Some "false positive")))
  else
    opt_string_eqb (what row) (Some name)
    || (usesDetail && opt_string_eqb (detail row) (Some name)).

(** The same with the track-level reading of ["interesting"] that the
    builder has: [what] is present and is neither ["bird"] nor
    ["false positive"]. *)
Definition nameMatches (usesDetail : bool) (name : string) (row : TagRow)
  : bool :=
  if String.eqb name "interesting" then
    if usesDetail then
      negb (opt_string_eqb (what row) (Some "bird"))
      && negb (opt_string_eqb (detail row) (Some "false positive"))
    else
      negb (is_null (what row))
      && negb (opt_string_eqb (what row) (Some "bird"))
      && negb (opt_string_eqb (what row) (Some "false positive"))
  else
    opt_string_eqb (what row) (Some name)
    || (usesDetail && opt_string_eqb (detail row) (Some name)).

End QueryBuilder.

(* ------------------------------------------------------------------ *)
(** ** Location precision (makeFilterOptions, filterData) *)

Local Open Scope Q_scope.

(** The principal, as far as the model asks. *)
Record User : Type := mkUser {
  hasGlobalWrite : bool;
  hasGlobalRead : bool
}.

(** [options]: [latLongPrec] is [None] when the property is absent or is
    not of type number. *)
Record FilterOptions : Type := mkFilterOptions {
  latLongPrec : option Q
}.

(** [Recording.makeFilterOptions]. *)
Definition makeFilterOptions (user : User) (options : FilterOptions)
  : FilterOptions :=
  let prec := match latLongPrec options with
              | Some p => p
              | None => 100
              end in
  let prec := if negb (hasGlobalWrite user) then Qmax prec 100 else prec in
  mkFilterOptions (Some prec).

(** Truncation towards zero. *)
Definition Qtrunc (q : Q) : Z := Z.quot (Qnum q) (Zpos (Qden q)).

(** Arithmetic that carries NaN along. *)
Definition lift2 (f : Q -> Q -> Q) (a b : number) : number :=
  match a, b with
  | Some x, Some y => Some (f x y)
  | _, _ => None
  end.

(** [a % b]: the remainder has the sign of [a]; NaN when [b] is zero. *)
Definition jsRem (a b : number) : number :=
  match a, b with
  | Some x, Some y =>
      if Qeq_bool y 0 then None
      else Some (x - y * inject_Z (Qtrunc (x / y)))
  | _, _ => None
  end.

(** [a > 0]: false for NaN. *)
Definition isPositive (a : number) : bool :=
  match a with
  | Some x => negb (Qle_bool x 0)
  | None => false
  end.

(** The callback that [reduceLatLonPrecision] maps over the pair, read in
    exact arithmetic.  The source computes in doubles: its result can
    differ from this one by the rounding of a double, and so by a whole cell
    for a value at the edge of a cell. *)
Definition reduceVal (resolution half_resolution : number) (val : number)
  : number :=
  let val := lift2 Qminus val (jsRem val resolution) in
  if isPositive val then lift2 Qplus val half_resolution
  else lift2 Qminus val half_resolution.

(** [reduceLatLonPrecision]; [None] when the assertion fails. *)
Definition reduceLatLonPrecision (latLon : list number) (prec : number)
  : option (list number) :=
  if Nat.eqb (List.length latLon) 2 then
    let resolution :=
      lift2 Qdiv (lift2 Qmult prec (Some 360)) (Some 40000000) in
    let half_resolution := lift2 Qdiv resolution (Some 2) in
    Some (map (reduceVal resolution half_resolution) latLon)
  else None.

(** [Recording.prototype.filterData]: the instance afterwards, or [None]
    when the assertion of [reduceLatLonPrecision] fails. *)
Definition filterData (options : FilterOptions) (this : Recording)
  : option Recording :=
  match location this with
  | Some loc =>
      match reduceLatLonPrecision (coordinates loc) (latLongPrec options) with
      | Some latLon => Some (with_location (Some (mkPoint latLon)) this)
      | None => None
      end
  | None => Some this
  end.

Local Close Scope Q_scope.

(* ------------------------------------------------------------------ *)
(** ** Access to recordings (src/models/Recording.js) *)

(** An integer kept as a JSON number. *)
Definition intOfJSON (v : JSON) : option Z :=
  match v with
  | JNum q => if Pos.eqb (Qden q) 1 then Some (Qnum q) else None
  | _ => None
  end.

(** The attributes [GroupId], [DeviceId] and [public] of a row. *)
Definition GroupId (r : Recording) : option Z :=
  match obj_get "GroupId" (others r) with
  | Some v => intOfJSON v
  | None => None
  end.

Definition DeviceId (r : Recording) : option Z :=
  match obj_get "DeviceId" (others r) with
  | Some v => intOfJSON v
  | None => None
  end.

Definition isPublic (r : Recording) : bool :=
  match obj_get "public" (others r) with
  | Some (JBool true) => true
  | _ => false
  end.

(** [Recording.Perms]. *)
Module Perms.

Definition DELETE : string := "delete".
Definition TAG : string := "tag".
Definition VIEW : string := "view".
Definition UPDATE : string := "update".

(** [Perms.all()]: the string values of the object, in order. *)
Definition all : list string := [DELETE; TAG; VIEW; UPDATE].

(** [Perms.isValid]. *)
Definition isValid (p : string) : bool := mem_string p all.

End Perms.

(** The user as the model of recordings asks about it: the two global
    flags, and what the User model answers about groups and devices. *)
Record Principal : Type := mkPrincipal {
  asUser : User;
  isInGroup : option Z -> bool;
  canAccessDevice : option Z -> bool;
  getGroupsIds : list Z;
  getDeviceIds : list Z
}.

(** [Recording.prototype.getUserPermissions]. *)
Definition getUserPermissions (p : Principal) (this : Recording)
  : list string :=
  if hasGlobalWrite (asUser p)
     || isInGroup p (GroupId this)
     || canAccessDevice p (DeviceId this)
  then [Perms.DELETE; Perms.TAG; Perms.VIEW; Perms.UPDATE]
  else if hasGlobalRead (asUser p) then [Perms.VIEW]
  else [].

(** The condition [recordingsFor] returns: [public] is true, or [GroupId]
    is one of the group ids, or [DeviceId] is one of the device ids. *)
Record AccessCondition : Type := mkAccessCondition {
  GroupIdIn : list Z;
  DeviceIdIn : list Z
}.

(** [recordingsFor]; [None] is its null (no restriction). *)
Definition recordingsFor (p : Principal) : option AccessCondition :=
  if hasGlobalRead (asUser p) then None
  else Some (mkAccessCondition (getGroupsIds p) (getDeviceIds p)).

Definition opt_Z_in (a : option Z) (l : list Z) : bool :=
  match a with
  | Some x => existsb (Z.eqb x) l
  | None => false
  end.

(** Whether a row passes the condition in the WHERE of a query. *)
Definition passes (c : option AccessCondition) (r : Recording) : bool :=
  match c with
  | None => true
  | Some c =>
      isPublic r
      || opt_Z_in (GroupId r) (GroupIdIn c)
      || opt_Z_in (DeviceId r) (DeviceIdIn c)
  end.

(** [Recording.userGetAttributes] with ["rawFileKey"], as [Recording.get]
    asks for them. *)
Definition userGetAttributes : list string :=
  [ "id"; "rawMimeType"; "fileMimeType"; "processingState"; "duration";
    "recordingDateTime"; "relativeToDawn"; "relativeToDusk"; "location";
    "version"; "batteryLevel"; "batteryCharging"; "airplaneModeOn"; "type";
    "additionalMetadata"; "GroupId"; "fileKey"; "comment" ].

(** The instance [Recording.get] loads: the other attributes are absent. *)
Definition selectUserGetAttributes (r : Recording) : Recording :=
  mkRecording (id r) (type r) (recordingDateTime r) (location r)
    (additionalMetadata r) (fileKey r) None (processingState r) None
    (filter (fun kv => mem_string (fst kv) (userGetAttributes ++ ["rawFileKey"]))
            (others r)).

Definition authorizationError : string :=
  "AuthorizationError: The user does not have permission to view this file".

(** [Recording.get].  [ty] is [options.type] and [filterOptions] is
    [options.filterOptions].  The include of the Device has a [where], so
    the row is found only with its device; the permissions are computed
    from the [GroupId] of the row and the id of that device. *)
Definition get (p : Principal) (i : Z) (permission : string)
    (ty : option string) (filterOptions : FilterOptions) (db : Recordings)
  : QueryBuilder.Outcome (option Recording) :=
  if negb (Perms.isValid permission)
  then QueryBuilder.Thrown
         "valid permission must be specified (e.g. models.Recording.Perms.VIEW)"
  else
    match find (fun r =>
                  Z.eqb (id r) i
                  && negb (is_null (DeviceId r))
                  && match ty with
                     | Some t => String.eqb t "" || opt_string_eqb (type r) (Some t)
                     | None => true
                     end) db with
    | None => QueryBuilder.Returned None
    | Some row =>
        if negb (mem_string permission (getUserPermissions p row))
        then QueryBuilder.Thrown authorizationError
        else
          match filterData (makeFilterOptions (asUser p) filterOptions)
                  (selectUserGetAttributes row) with
          | Some recording => QueryBuilder.Returned (Some recording)
          | None => QueryBuilder.Thrown "AssertionError"
          end
    end.





(** [Recording.deleteOne]. *)
Definition deleteOne (p : Principal) (i : Z) (db : Recordings)
  : QueryBuilder.Outcome bool * Recordings :=
  match get p i Perms.DELETE None (mkFilterOptions None) db with
  | QueryBuilder.Thrown e => (QueryBuilder.Thrown e, db)
  | QueryBuilder.Returned None => (QueryBuilder.Returned false, db)
  | QueryBuilder.Returned (Some recording) =>
      (QueryBuilder.Returned true,
       filter (fun x => negb (Z.eqb (id x) (id recording))) db)
  end.

(* ------------------------------------------------------------------ *)
(** ** The other handlers of /api/fileProcessing (src/unnamed/part_000) *)

(** What GET /api/fileProcessing answers: 204 without a body, or 200 with
    the recording. *)
Inductive JobResponse : Type :=
| NoContent
| JobFound (recording : Recording)
| JobRaised (error : string).

(** The handler of GET /api/fileProcessing. *)
Definition getFileProcessing (dbError : option string)
    (uuid : string) (now savedAt : Z) (ty st : string) (db : Recordings)
  : JobResponse * Recordings :=
  let (p, db') := getOneForProcessing dbError uuid now savedAt ty st db in
  match p with
  | Fulfilled None => (NoContent, db')
  | Fulfilled (Some recording) => (JobFound recording, db')
  | Rejected e => (JobRaised e, db')
  end.

(** [Recording.prototype.getTrack]. *)
Definition getTrack (this : Recording) (trackId : Z) (db : Database)
  : option Track :=
  match find (fun tr => Z.eqb (track_id tr) trackId) (Tracks db) with
  | None => None
  | Some track =>
      if opt_Z_eqb (track_RecordingId track) (id this) then Some track
      else None
  end.

(** The handler of POST /api/fileProcessing/:id/tracks/:trackId/tags. *)
Definition postTrackTag (i trackId : Z) (what_ : option string)
    (db : Database) : Response * Database :=
  match findById i (RecordingsTable db) with
  | None => (Json 400 ["No such recording."], db)
  | Some recording =>
      match getTrack recording trackId db with
      | None => (Json 400 ["No such track."], db)
      | Some track =>
          (Json 200 ["Track tag added."],
           mkDatabase (RecordingsTable db) (Tags db) (Tracks db)
             (TrackTags db ++ [mkTrackTag (Some (track_id track)) what_ (Some true)]))
      end
  end.

(** The handler of DELETE /api/fileProcessing/:id/tracks. *)
Definition deleteTracks (i : Z) (db : Database) : Response * Database :=
  match findById i (RecordingsTable db) with
  | None => (Json 400 ["No such recording."], db)
  | Some recording =>
      (Json 200 ["Tracks cleared."],
       mkDatabase (RecordingsTable db) (Tags db)
         (filter (fun tr => negb (opt_Z_eqb (track_RecordingId tr) (id recording)))
                 (Tracks db))
         (TrackTags db))
  end.

(** The database without its archived tracks. *)
Definition withoutArchivedTracks (db : Database) : Database :=
  mkDatabase (RecordingsTable db) (Tags db)
    (filter (fun tr => is_null (archivedAt tr)) (Tracks db))
    (TrackTags db).

(* ------------------------------------------------------------------ *)
(** ** The query of recordings (Recording.queryBuilder.prototype.init) *)

(** The query [init] builds.  The user's [where] is kept as the predicate
    it stands for; [plan_order] is [None] for the default order. *)
Record QueryPlan : Type := mkQueryPlan {
  plan_where : Recording -> bool;
  plan_access : option AccessCondition;
  plan_tags : QueryBuilder.pred;
  plan_order : option (Recording -> Recording -> bool);
  plan_limit : nat;
  plan_offset : nat
}.

(** [Recording.queryBuilder.prototype.init].  A missing [where] is the
    empty one; a missing or zero [offset] is 0 and a missing or zero
    [limit] is 300; the exception of [handleTagMode] goes through. *)
Definition init (p : Principal) (where_ : option (Recording -> bool))
    (tagMode : option string) (tags : option (list string))
    (offset limit : option nat)
    (order : option (Recording -> Recording -> bool))
  : QueryBuilder.Outcome QueryPlan :=
  let where_ := match where_ with
                | Some w => w
                | None => fun _ => true
                end in
  let offset := match offset with
                | Some (S n) => S n
                | _ => 0%nat
                end in
  let limit := match limit with
               | Some (S n) => S n
               | _ => 300%nat
               end in
  match QueryBuilder.handleTagMode tagMode tags with
  | QueryBuilder.Thrown e => QueryBuilder.Thrown e
  | QueryBuilder.Returned tagCondition =>
      QueryBuilder.Returned
        (mkQueryPlan where_ (recordingsFor p) tagCondition order limit offset)
  end.

(** The default order: COALESCE("recordingDateTime", '1970-01-01') DESC,
    then id DESC.  [defaultBefore a b]: [a] sorts strictly before [b]. *)
Definition coalesceDate (r : Recording) : Z :=
  match recordingDateTime r with
  | Some d => d
  | None => 0
  end.

Definition defaultBefore (a b : Recording) : bool :=
  Z.ltb (coalesceDate b) (coalesceDate a)
  || (Z.eqb (coalesceDate a) (coalesceDate b) && Z.ltb (id b) (id a)).

(** ORDER BY, as an insertion sort. *)
Fixpoint insertBy (before : Recording -> Recording -> bool) (x : Recording)
    (l : Recordings) : Recordings :=
  match l with
  | [] => [x]
  | y :: l' => if before y x then y :: insertBy before x l' else x :: y :: l'
  end.

Fixpoint sortBy (before : Recording -> Recording -> bool) (l : Recordings)
  : Recordings :=
  match l with
  | [] => []
  | x :: l' => insertBy before x (sortBy before l')
  end.

(** The rows the query returns: the rows that pass the three conditions of
    its WHERE, in order, from the offset on and up to the limit. *)
Definition runQuery (db : Database) (plan : QueryPlan) : Recordings :=
  firstn (plan_limit plan)
    (skipn (plan_offset plan)
       (sortBy (match plan_order plan with
                | Some before => before
                | None => defaultBefore
                end)
          (filter (fun r =>
                     plan_where plan r
                     && passes (plan_access plan) r
                     && QueryBuilder.evalPred db (id r) (plan_tags plan))
                  (RecordingsTable db)))).

(** Whether the recording [rid] passes the condition built for a tag mode
    and a list of tag names.  It is [None] when [handleTagMode] throws, and
    also when one of the names holds a quote: what the database makes of
    the text built then is not for the tree to say. *)
Definition matchesTagMode (db : Database) (rid : Z) (tagMode : option string)
    (tagWhatsIn : option (list string)) : option bool :=
  if QueryBuilder.plainNames tagWhatsIn then
    match QueryBuilder.handleTagMode tagMode tagWhatsIn with
    | QueryBuilder.Returned p => Some (QueryBuilder.evalPred db rid p)
    | QueryBuilder.Thrown _ => None
    end
  else None.


(* ------------------------------------------------------------------ *)
(** ** Examples used to evaluate the model *)

(** A backend for the examples: a value of the wrong type is written as
    NULL, a dotted path leaves the attribute as it is, and field updates
    are refused when they name [location]. *)
Definition exampleBackend : Backend :=
  mkBackend (fun _ => None) (fun _ => None) (fun _ => None)
    (fun _ _ old => old)
    (fun fieldUpdates _ =>
       existsb (fun kv => String.eqb (fst kv) "location") (forIn fieldUpdates)).

(** An audio recording waiting for its first job. *)
Definition audioPending (i : Z) (date : option Z) : Recording :=
  mkRecording i (Some "audio") date None None (Some "f1") None
    (Some "toMp3") None [("rawFileKey", JStr "raw")].

(** The same recording once claimed with the job key ["T"] at time 99. *)
Definition audioClaimed (i : Z) (date : option Z) : Recording :=
  with_processingStartTime (Some 99) (with_jobKey (Some "T") (audioPending i date)).

(** A recording made near Christchurch. *)
Definition christchurch : Recording :=
  with_location (Some (mkPoint [Some (-435 # 10)%Q; Some (1726 # 10)%Q]))
    (audioPending 1 None).

(** The claim pair of a row: [jobKey] and [processingStartTime] are both
    null or both set. *)
Definition claimPairOk (r : Recording) : Prop :=
  jobKey r = None <-> processingStartTime r = None.

(** The field updates carried by [result], if any, are applied and saved
    without failure, whatever the instance. *)
Definition updatesAccepted (B : Backend) (result : option JSON) : Prop :=
  forall fieldUpdates r,
    fieldUpdatesOf result = Some fieldUpdates ->
    updatesFail B fieldUpdates r = false.

(** Whether the field updates carried by [result] name the attribute. *)
Definition namesField (name : string) (result : option JSON) : bool :=
  match fieldUpdatesOf result with
  | Some fieldUpdates =>
      existsb (fun kv => String.eqb (fst kv) name) (forIn fieldUpdates)
  | None => false
  end.

(* ------------------------------------------------------------------ *)
(** ** Lemmas on the table *)

Lemma opt_string_eqb_eq (a b : option string) :
  opt_string_eqb a b = true <-> a = b.
Proof.
  destruct a as [x|], b as [y|]; simpl; split; intro H;
    try discriminate; try reflexivity.
  - apply String.eqb_eq in H. now subst.
  - injection H as ->. apply String.eqb_refl.
Qed.

Lemma opt_string_eqb_neq (a b : option string) :
  opt_string_eqb a b = false <-> a <> b.
Proof.
  split.
  - intros H E. apply opt_string_eqb_eq in E. congruence.
  - intro H. destruct (opt_string_eqb a b) eqn:E; [|reflexivity].
    apply opt_string_eqb_eq in E. contradiction.
Qed.

Lemma obj_get_set_same (k : string) (v : JSON) (o : Obj) :
  obj_get k (obj_set k v o) = Some v.
Proof.
  induction o as [|[k' v'] o IH]; simpl.
  - now rewrite String.eqb_refl.
  - destruct (String.eqb k k') eqn:E; simpl; rewrite E; [reflexivity|exact IH].
Qed.

Lemma obj_get_set_other (k k' : string) (v : JSON) (o : Obj) :
  String.eqb k k' = false -> obj_get k (obj_set k' v o) = obj_get k o.
Proof.
  intro Hne. induction o as [|[k0 v0] o IH]; simpl.
  - now rewrite Hne.
  - destruct (String.eqb k' k0) eqn:E; simpl.
    + apply String.eqb_eq in E. subst k0. now rewrite Hne.
    + destruct (String.eqb k k0); [reflexivity | exact IH].
Qed.

(** Setting a property twice is setting it to the second value. *)
Lemma obj_set_set (k : string) (v1 v2 : JSON) (o : Obj) :
  obj_set k v2 (obj_set k v1 o) = obj_set k v2 o.
Proof.
  induction o as [|[k' v'] o IH]; simpl.
  - now rewrite String.eqb_refl.
  - destruct (String.eqb k k') eqn:E; simpl; rewrite E; [reflexivity|].
    now rewrite IH.
Qed.

Lemma touch_touch (t1 t2 : Z) (r : Recording) :
  touch t2 (touch t1 r) = touch t2 r.
Proof. unfold touch, with_others. simpl. now rewrite obj_set_set. Qed.

(** What [touch] leaves of the other attributes. *)
Lemma touch_others (t : Z) (r : Recording) :
  obj_get "updatedAt" (others (touch t r)) = Some (JNum (inject_Z t))
  /\ forall k, k <> "updatedAt" ->
               obj_get k (others (touch t r)) = obj_get k (others r).
Proof.
  split.
  - apply obj_get_set_same.
  - intros k Hk. apply obj_get_set_other. now apply String.eqb_neq.
Qed.

Lemma findById_In (i : Z) (db : Recordings) (r : Recording) :
  findById i db = Some r -> In r db /\ id r = i.
Proof.
  unfold findById. intro H. apply find_some in H.
  destruct H as [Hin Heq]. split; [assumption|]. now apply Z.eqb_eq.
Qed.

Lemma findById_updateWhereId_same
    (i : Z) (change : Recording -> Recording) (db : Recordings)
    (r : Recording) :
  (forall x, id (change x) = id x) ->
  findById i db = Some r ->
  findById i (updateWhereId i change db) = Some (change r).
Proof.
  intros Hid. unfold findById, updateWhereId.
  induction db as [|x db IH]; simpl; [discriminate|].
  destruct (Z.eqb (id x) i) eqn:E.
  - intro H. injection H as <-. simpl. now rewrite Hid, E.
  - intro H. simpl. rewrite E. now apply IH.
Qed.

Lemma findById_updateWhereId_other
    (i j : Z) (change : Recording -> Recording) (db : Recordings) :
  (forall x, id (change x) = id x) ->
  j <> i ->
  findById j (updateWhereId i change db) = findById j db.
Proof.
  intros Hid Hj. unfold findById, updateWhereId.
  induction db as [|x db IH]; simpl; [reflexivity|].
  destruct (Z.eqb (id x) i) eqn:E.
  - apply Z.eqb_eq in E. simpl. rewrite Hid.
    destruct (Z.eqb (id x) j) eqn:E2; [|exact IH].
    apply Z.eqb_eq in E2. congruence.
  - simpl. destruct (Z.eqb (id x) j); [reflexivity | exact IH].
Qed.

Lemma updateWhereId_ids
    (i : Z) (change : Recording -> Recording) (db : Recordings) :
  (forall x, id (change x) = id x) ->
  map id (updateWhereId i change db) = map id db.
Proof.
  intro Hid. unfold updateWhereId. rewrite map_map. apply map_ext.
  intro x. destruct (Z.eqb (id x) i); [apply Hid | reflexivity].
Qed.

Lemma updateWhereId_Forall (P : Recording -> Prop) (i : Z)
    (change : Recording -> Recording) (db : Recordings) :
  (forall x, In x db -> id x = i -> P x -> P (change x)) ->
  Forall P db -> Forall P (updateWhereId i change db).
Proof.
  intros Hchange Hdb. unfold updateWhereId. apply Forall_map.
  rewrite Forall_forall in Hdb |- *. intros x Hx.
  destruct (Z.eqb (id x) i) eqn:E; [|now apply Hdb].
  apply Z.eqb_eq in E. apply Hchange; auto.
Qed.

Lemma findById_save_same (t : Z) (r0 r : Recording) (db : Recordings) :
  findById (id r) db = Some r0 ->
  findById (id r) (save t r db) = Some (touch t r).
Proof.
  unfold findById, save, updateWhereId. induction db as [|x db IH]; simpl.
  - discriminate.
  - destruct (Z.eqb (id x) (id r)) eqn:E.
    + intros _. simpl. now rewrite Z.eqb_refl.
    + intro H. simpl. rewrite E. now apply IH.
Qed.

Lemma findById_save_other (t : Z) (j : Z) (r : Recording) (db : Recordings) :
  j <> id r -> findById j (save t r db) = findById j db.
Proof.
  intro Hj. unfold findById, save, updateWhereId.
  induction db as [|x db IH]; simpl.
  - reflexivity.
  - destruct (Z.eqb (id x) (id r)) eqn:E.
    + apply Z.eqb_eq in E. simpl.
      destruct (Z.eqb (id r) j) eqn:E1.
      * apply Z.eqb_eq in E1. congruence.
      * destruct (Z.eqb (id x) j) eqn:E2.
        -- apply Z.eqb_eq in E2. congruence.
        -- exact IH.
    + simpl. destruct (Z.eqb (id x) j); [reflexivity | exact IH].
Qed.

Lemma save_Forall (P : Recording -> Prop) (t : Z) (r : Recording)
    (db : Recordings) :
  P (touch t r) -> Forall P db -> Forall P (save t r db).
Proof.
  intros Hr Hdb. unfold save, updateWhereId. apply Forall_map.
  apply Forall_impl with (P := P); [|assumption].
  intros x Hx. destruct (Z.eqb (id x) (id r)); assumption.
Qed.

(* ------------------------------------------------------------------ *)
(** ** Reporting a job: the key check and the failure branch *)

Section Report.

Variable B : Backend.

(** C3. A report whose [jobKey] differs from the one stored on the targeted
    recording is answered with status 400 and the mismatch message, and the
    table is left as it was: no column of the recording (nor of any other
    row) changes.  The same holds for the whole handler, whatever else the
    request carries. *)
Theorem report_jobKey_mismatch
    (savedAt : Z) (i : Z) (key : string) (success : bool)
    (result : option JSON)
    (complete : option bool) (newProcessedFileKey : option string)
    (db : Recordings) (recording : Recording) :
  findById i db = Some recording ->
  jobKey recording <> Some key ->
  report B savedAt i key success result complete newProcessedFileKey db
    = (Json 400 [jobKeyMismatch], db)
  /\ (forall body,
        body_id body = Some i -> body_jobKey body = Some key ->
        snd (putFileProcessing B savedAt body db) = db
        /\ exists messages,
             fst (putFileProcessing B savedAt body db) = Json 400 messages).
Proof.
  intros Hfind Hkey.
  assert (Hrep : forall s res c k,
             report B savedAt i key s res c k db
             = (Json 400 [jobKeyMismatch], db)).
  { intros s res c k. unfold report. rewrite Hfind.
    assert (E : opt_string_eqb (Some key) (jobKey recording) = false).
    { apply opt_string_eqb_neq. congruence. }
    now rewrite E. }
  split; [apply Hrep|].
  intros body Hid Hk. unfold putFileProcessing.
  destruct (errorMessages body) as [|m ms] eqn:Em.
  - rewrite Hid, Hk. destruct (body_success body) as [s|].
    + rewrite Hrep. simpl. eauto.
    + simpl. eauto.
  - simpl. eauto.
Qed.

(** C5 (as amended). A report with [success = false] and the stored
    [jobKey] clears [jobKey] and [processingStartTime], whatever the
    [processingState] of the recording was, and sets [updatedAt] to the time
    of the save; every other attribute of the row, and every other row, is
    as before. *)
Theorem report_failure_clears_claim
    (savedAt : Z) (i : Z) (key : string) (result : option JSON)
    (complete : option bool) (newProcessedFileKey : option string)
    (db : Recordings) (recording : Recording) :
  findById i db = Some recording ->
  jobKey recording = Some key ->
  exists db' r',
    report B savedAt i key false result complete newProcessedFileKey db
      = (Json 200 ["Processing failed."], db')
    /\ findById i db' = Some r'
    /\ jobKey r' = None
    /\ processingStartTime r' = None
    /\ processingState r' = processingState recording
    /\ id r' = id recording
    /\ type r' = type recording
    /\ recordingDateTime r' = recordingDateTime recording
    /\ location r' = location recording
    /\ additionalMetadata r' = additionalMetadata recording
    /\ fileKey r' = fileKey recording
    /\ obj_get "updatedAt" (others r') = Some (JNum (inject_Z savedAt))
    /\ (forall k, k <> "updatedAt" ->
          obj_get k (others r') = obj_get k (others recording))
    /\ (forall j, j <> i -> findById j db' = findById j db).
Proof.
  intros Hfind Hkey.
  destruct (findById_In _ _ _ Hfind) as [_ Hid].
  set (r' := with_jobKey None (with_processingStartTime None recording)).
  exists (save savedAt r' db), (touch savedAt r').
  assert (Hid' : id r' = i) by exact Hid.
  split.
  { unfold report. rewrite Hfind, Hkey. simpl. now rewrite String.eqb_refl. }
  split.
  { rewrite <- Hid'. apply findById_save_same with (r0 := recording).
    now rewrite Hid'. }
  repeat (split; [reflexivity|]).
  split; [apply (touch_others savedAt r')|].
  split; [apply (touch_others savedAt r')|].
  intros j Hj. apply findById_save_other. congruence.
Qed.

End Report.

(** Witness of C3: a report with the key X for a recording claimed with
    the key T. *)
Lemma report_jobKey_mismatch_witness :
  findById 1 [audioClaimed 1 (Some 10)] = Some (audioClaimed 1 (Some 10))
  /\ jobKey (audioClaimed 1 (Some 10)) <> Some "X"
  /\ report exampleBackend 200 1 "X" true None (Some true) (Some "f2")
       [audioClaimed 1 (Some 10)]
     = (Json 400 [jobKeyMismatch], [audioClaimed 1 (Some 10)]).
Proof.
  assert (Hfind : findById 1 [audioClaimed 1 (Some 10)]
                  = Some (audioClaimed 1 (Some 10))) by reflexivity.
  assert (Hkey : jobKey (audioClaimed 1 (Some 10)) <> Some "X")
    by (simpl; discriminate).
  split; [exact Hfind|]. split; [exact Hkey|].
  exact (proj1 (report_jobKey_mismatch exampleBackend 200 1 "X" true None
                  (Some true) (Some "f2") _ _ Hfind Hkey)).
Defined.

(** Witness of C5: a failed job reported with the key T for a recording
    claimed with the key T. *)
Lemma report_failure_clears_claim_witness :
  exists db' r',
    report exampleBackend 200 1 "T" false None None None
      [audioClaimed 1 (Some 10)]
      = (Json 200 ["Processing failed."], db')
    /\ findById 1 db' = Some r'
    /\ jobKey r' = None
    /\ processingStartTime r' = None
    /\ processingState r' = Some "toMp3".
Proof.
  destruct (report_failure_clears_claim exampleBackend 200 1 "T" None None
              None [audioClaimed 1 (Some 10)] (audioClaimed 1 (Some 10))
              eq_refl eq_refl)
    as (db' & r' & H1 & H2 & H3 & H4 & H5 & _).
  exists db', r'. repeat split; assumption.
Defined.

(** Counterexample to C5 as stated: a field other than the claim pair
    changes.  The row was last updated at time 50; after the failed job is
    reported at time 200 its [updatedAt] is 200. *)
Lemma report_failure_changes_updatedAt :
  let before :=
    with_others [("rawFileKey", JStr "raw"); ("updatedAt", JNum 50)]
      (audioClaimed 1 (Some 10)) in
  exists r',
    report exampleBackend 200 1 "T" false None None None [before]
    = (Json 200 ["Processing failed."], [r'])
    /\ obj_get "updatedAt" (others before) = Some (JNum 50)
    /\ obj_get "updatedAt" (others r') = Some (JNum 200)
    /\ others r' <> others before.
Proof.
  cbv zeta. eexists. split; [reflexivity|].
  split; [reflexivity|]. split; [reflexivity|].
  simpl. discriminate.
Qed.

(* ------------------------------------------------------------------ *)
(** ** The next job *)

Lemma indexOf_app (s : string) (before rest : list string) :
  ~ In s before ->
  indexOf (Some s) (before ++ s :: rest) = Z.of_nat (List.length before).
Proof.
  induction before as [|a before IH]; intro Hnot.
  - simpl. now rewrite String.eqb_refl.
  - cbn [app indexOf opt_string_eqb List.length].
    destruct (String.eqb s a) eqn:E.
    + apply String.eqb_eq in E. subst a. exfalso. apply Hnot. now left.
    + rewrite IH by (intro H; apply Hnot; now right).
      destruct (Z.ltb_spec (Z.of_nat (List.length before)) 0); lia.
Qed.

Lemma indexOf_absent (s : option string) (jobs : list string) :
  (forall j, In j jobs -> s <> Some j) -> indexOf s jobs = -1.
Proof.
  induction jobs as [|j jobs IH]; intro Hnot; [reflexivity|].
  cbn [indexOf].
  assert (E : opt_string_eqb s (Some j) = false).
  { apply opt_string_eqb_neq. apply Hnot. now left. }
  rewrite E, IH by (intros k Hk; apply Hnot; now right). reflexivity.
Qed.

Lemma at_index_nat (jobs : list string) (n : nat) :
  at_index jobs (Z.of_nat n) = nth_error jobs n.
Proof.
  unfold at_index. destruct (Z.ltb_spec (Z.of_nat n) 0); [lia|].
  now rewrite Nat2Z.id.
Qed.

(** The element after the first occurrence of the state. *)
Lemma nextJob_successor (before after : list string) (s next : string) :
  ~ In s before ->
  nextJob (before ++ s :: next :: after) (Some s) = Some next.
Proof.
  intro Hnot. unfold nextJob. rewrite indexOf_app by assumption.
  replace (Z.of_nat (List.length before) + 1)
    with (Z.of_nat (S (List.length before))) by lia.
  rewrite at_index_nat.
  rewrite nth_error_app2 by lia.
  replace (S (List.length before) - List.length before)%nat with 1%nat by lia.
  reflexivity.
Qed.

(** After the last job there is nothing: the lookup gives undefined. *)
Lemma nextJob_terminal (before : list string) (s : string) :
  ~ In s before -> nextJob (before ++ [s]) (Some s) = None.
Proof.
  intro Hnot. unfold nextJob. rewrite indexOf_app by assumption.
  replace (Z.of_nat (List.length before) + 1)
    with (Z.of_nat (S (List.length before))) by lia.
  rewrite at_index_nat. apply nth_error_None.
  rewrite length_app. simpl. lia.
Qed.

(** X9. A state that is not a job of the list leads to the first job. *)
Lemma nextJob_absent (s : option string) (jobs : list string) :
  (forall j, In j jobs -> s <> Some j) -> nextJob jobs s = hd_error jobs.
Proof.
  intro Hnot. unfold nextJob. rewrite indexOf_absent by assumption.
  simpl. unfold at_index. simpl. now destruct jobs.
Qed.

(* ------------------------------------------------------------------ *)
(** ** Field updates leave alone the attributes they do not name *)

Section Updates.

Variable B : Backend.

Ltac set_cases :=
  unfold set;
  repeat match goal with
         | |- context [if ?c then _ else _] => destruct c eqn:?
         | |- context [match splitAtDot ?n with _ => _ end] =>
             destruct (splitAtDot n) as [[? ?]|]
         end;
  simpl; try reflexivity; congruence.

Lemma set_processingState_other (name : string) (v : JSON) (r : Recording) :
  String.eqb name "processingState" = false ->
  processingState (set B name v r) = processingState r.
Proof. intro H. set_cases. Qed.

Lemma set_fileKey_other (name : string) (v : JSON) (r : Recording) :
  String.eqb name "fileKey" = false ->
  fileKey (set B name v r) = fileKey r.
Proof. intro H. set_cases. Qed.

Lemma set_jobKey_other (name : string) (v : JSON) (r : Recording) :
  String.eqb name "jobKey" = false ->
  jobKey (set B name v r) = jobKey r.
Proof. intro H. set_cases. Qed.

Lemma set_processingStartTime_other (name : string) (v : JSON)
    (r : Recording) :
  String.eqb name "processingStartTime" = false ->
  processingStartTime (set B name v r) = processingStartTime r.
Proof. intro H. set_cases. Qed.

Lemma set_id (name : string) (v : JSON) (r : Recording) :
  id (set B name v r) = id r.
Proof. set_cases. Qed.

(** A projection that [set] keeps under every other name, and that the
    metadata merge keeps, is kept by [mergeUpdate] when the updates do not
    carry that name. *)
Lemma mergeUpdate_keeps {A : Type} (f : Recording -> A) (name : string) :
  (forall n v r, String.eqb n name = false -> f (set B n v r) = f r) ->
  (forall v r, f (mergeAdditionalMetadata v r) = f r) ->
  forall (newValues : JSON) (r : Recording),
    existsb (fun kv => String.eqb (fst kv) name) (forIn newValues) = false ->
    f (mergeUpdate B newValues r) = f r.
Proof.
  intros Hset Hmeta newValues. unfold mergeUpdate.
  induction (forIn newValues) as [|[n v] l IH]; intros r Hnone.
  - reflexivity.
  - simpl in Hnone. apply orb_false_iff in Hnone. destruct Hnone as [Hn Hl].
    simpl. rewrite IH by assumption.
    destruct (String.eqb n "additionalMetadata"); [apply Hmeta|].
    now apply Hset.
Qed.

Lemma mergeUpdate_id (newValues : JSON) (r : Recording) :
  id (mergeUpdate B newValues r) = id r.
Proof.
  unfold mergeUpdate. revert r.
  induction (forIn newValues) as [|[n v] l IH]; intro r; [reflexivity|].
  simpl. rewrite IH.
  destruct (String.eqb n "additionalMetadata"); [reflexivity | apply set_id].
Qed.

End Updates.

(* ------------------------------------------------------------------ *)
(** ** Reporting a job: the success branch *)

Section ReportSuccess.

Variable B : Backend.

(** The row a successful report writes, when its field updates are
    accepted and name none of the four processing columns. *)
Lemma report_success_row
    (savedAt : Z) (i : Z) (key : string) (result : option JSON)
    (complete : option bool) (newProcessedFileKey : option string)
    (db : Recordings) (recording : Recording) (jobs : list string) :
  findById i db = Some recording ->
  jobKey recording = Some key ->
  processingStates (type recording) = Some jobs ->
  namesField "processingState" result = false ->
  namesField "fileKey" result = false ->
  namesField "jobKey" result = false ->
  namesField "processingStartTime" result = false ->
  updatesAccepted B result ->
  exists db' r',
    report B savedAt i key true result complete newProcessedFileKey db
      = (Json 200 ["Processing finished."], db')
    /\ findById i db' = Some r'
    /\ processingState r'
       = match nextJob jobs (processingState recording) with
         | Some job => Some job
         | None => processingState recording
         end
    /\ fileKey r'
       = match newProcessedFileKey with
         | Some k => Some k
         | None => fileKey recording
         end
    /\ jobKey r' = (if bool_truthy complete then None else jobKey recording)
    /\ processingStartTime r'
       = (if bool_truthy complete then None
          else processingStartTime recording).
Proof.
  intros Hfind Hkey Hjobs Hps Hfk Hjk Hpst Hacc.
  destruct (findById_In _ _ _ Hfind) as [_ Hid].
  assert (E : negb (opt_string_eqb (Some key) (jobKey recording)) = false).
  { rewrite Hkey. simpl. now rewrite String.eqb_refl. }
  unfold report. rewrite Hfind, E, Hjobs.
  set (r3 := if bool_truthy complete then _ else _).
  assert (Hr3 : id r3 = i
                /\ processingState r3
                   = match nextJob jobs (processingState recording) with
                     | Some job => Some job
                     | None => processingState recording
                     end
                /\ fileKey r3
                   = match newProcessedFileKey with
                     | Some k => Some k
                     | None => fileKey recording
                     end
                /\ jobKey r3
                   = (if bool_truthy complete then None else jobKey recording)
                /\ processingStartTime r3
                   = (if bool_truthy complete then None
                      else processingStartTime recording)).
  { subst r3.
    destruct (bool_truthy complete), newProcessedFileKey,
      (nextJob jobs (processingState recording)); simpl; auto. }
  destruct Hr3 as (H0 & H1 & H2 & H3 & H4).
  unfold namesField in *.
  destruct (fieldUpdatesOf result) as [fieldUpdates|] eqn:Efu.
  - rewrite (Hacc fieldUpdates r3 Efu).
    set (r4 := mergeUpdate B fieldUpdates r3).
    assert (Hid4 : id r4 = i) by (subst r4; now rewrite mergeUpdate_id).
    exists (save savedAt r4 db), (touch savedAt r4).
    split; [reflexivity|]. split.
    { rewrite <- Hid4. apply findById_save_same with (r0 := recording).
      now rewrite Hid4. }
    subst r4. cbn [touch with_others processingState fileKey jobKey
                     processingStartTime].
    repeat split.
    + rewrite <- H1. apply mergeUpdate_keeps with (name := "processingState");
        auto using set_processingState_other.
    + rewrite <- H2. apply mergeUpdate_keeps with (name := "fileKey");
        auto using set_fileKey_other.
    + rewrite <- H3. apply mergeUpdate_keeps with (name := "jobKey");
        auto using set_jobKey_other.
    + rewrite <- H4.
      apply mergeUpdate_keeps with (name := "processingStartTime");
        auto using set_processingStartTime_other.
  - exists (save savedAt r3 db), (touch savedAt r3).
    split; [reflexivity|]. split.
    { rewrite <- H0. apply findById_save_same with (r0 := recording).
      now rewrite H0. }
    cbn [touch with_others processingState fileKey jobKey
           processingStartTime].
    auto.
Qed.

(** C4 (as amended). A report with [success = true], [complete = true] and
    the stored [jobKey], for a recording whose state is followed by [next]
    in the job list of its type, and whose result carries no field update
    named [processingState], [fileKey], [jobKey] or [processingStartTime]
    and none that is refused, is answered with status 200 and leaves the
    recording in state [next], with [jobKey] and [processingStartTime]
    null, and with [fileKey] the new key when the request gives one and as
    it was when it gives none. *)
Theorem report_success_complete
    (savedAt : Z) (i : Z) (key : string) (result : option JSON)
    (newProcessedFileKey : option string)
    (db : Recordings) (recording : Recording)
    (before after : list string) (s next : string) :
  findById i db = Some recording ->
  jobKey recording = Some key ->
  processingStates (type recording)
    = Some (before ++ s :: next :: after)%list ->
  ~ In s before ->
  processingState recording = Some s ->
  namesField "processingState" result = false ->
  namesField "fileKey" result = false ->
  namesField "jobKey" result = false ->
  namesField "processingStartTime" result = false ->
  updatesAccepted B result ->
  exists db' r',
    report B savedAt i key true result (Some true) newProcessedFileKey db
      = (Json 200 ["Processing finished."], db')
    /\ findById i db' = Some r'
    /\ processingState r' = Some next
    /\ fileKey r'
       = match newProcessedFileKey with
         | Some newFileKey => Some newFileKey
         | None => fileKey recording
         end
    /\ jobKey r' = None
    /\ processingStartTime r' = None.
Proof.
  intros Hfind Hkey Hjobs Hnot Hstate Hps Hfk Hjk Hpst Hacc.
  destruct (report_success_row savedAt i key result (Some true)
              newProcessedFileKey db recording _ Hfind Hkey Hjobs Hps Hfk
              Hjk Hpst Hacc)
    as (db' & r' & Hrep & Hfind' & H1 & H2 & H3 & H4).
  exists db', r'. rewrite Hstate, nextJob_successor in H1 by assumption.
  simpl in H3, H4. repeat split; assumption.
Qed.

(** C6 (as amended). The next job is the element right after the state in
    the list, whenever the state is in the list and is not its last
    element.  A successful report never fails for want of a next job: with
    the stored [jobKey], a recording type that has a job list and field
    updates that are not refused, it is answered with status 200 whatever
    the state of the recording is; and when there is no next job (the state
    is the last of the list) and the field updates do not name
    [processingState], the recording keeps its state. *)
Theorem nextJob_after_state_report_never_invalid :
  (forall (before after : list string) (s next : string),
      ~ In s before ->
      nextJob (before ++ s :: next :: after) (Some s) = Some next)
  /\ (forall (savedAt i : Z) (key : string) (result : option JSON)
             (complete : option bool) (newProcessedFileKey : option string)
             (db : Recordings) (recording : Recording) (jobs : list string),
         findById i db = Some recording ->
         jobKey recording = Some key ->
         processingStates (type recording) = Some jobs ->
         updatesAccepted B result ->
         fst (report B savedAt i key true result complete
                newProcessedFileKey db)
           = Json 200 ["Processing finished."]
         /\ (nextJob jobs (processingState recording) = None ->
             namesField "processingState" result = false ->
             exists r',
               findById i (snd (report B savedAt i key true result complete
                                  newProcessedFileKey db)) = Some r'
               /\ processingState r' = processingState recording)).
Proof.
  split.
  - intros. now apply nextJob_successor.
  - intros savedAt i key result complete newKey db recording jobs
      Hfind Hkey Hjobs Hacc.
    split.
    + unfold report. rewrite Hfind, Hkey, Hjobs. simpl opt_string_eqb.
      rewrite String.eqb_refl. cbn [negb].
      destruct (fieldUpdatesOf result) as [fieldUpdates|] eqn:Efu;
        [|reflexivity].
      now rewrite (Hacc fieldUpdates _ Efu).
    + intros Hnone Hps.
      destruct (findById_In _ _ _ Hfind) as [_ Hid].
      assert (E : negb (opt_string_eqb (Some key) (jobKey recording)) = false).
      { rewrite Hkey. simpl. now rewrite String.eqb_refl. }
      unfold report. rewrite Hfind, E, Hjobs, Hnone.
      cbn [setIfDefined].
      set (r3 := if bool_truthy complete then _ else _).
      assert (Hr3 : id r3 = i
                    /\ processingState r3 = processingState recording).
      { subst r3. destruct (bool_truthy complete), newKey; simpl; auto. }
      destruct Hr3 as [H0 H1].
      unfold namesField in Hps.
      destruct (fieldUpdatesOf result) as [fieldUpdates|] eqn:Efu.
      * rewrite (Hacc fieldUpdates r3 Efu).
        set (r4 := mergeUpdate B fieldUpdates r3).
        assert (Hid4 : id r4 = i) by (subst r4; now rewrite mergeUpdate_id).
        exists (touch savedAt r4). split.
        { cbn [snd]. rewrite <- Hid4.
          apply findById_save_same with (r0 := recording). now rewrite Hid4. }
        subst r4. cbn [touch with_others processingState]. rewrite <- H1.
        apply mergeUpdate_keeps with (name := "processingState");
          auto using set_processingState_other.
      * exists (touch savedAt r3). split.
        { cbn [snd]. rewrite <- H0.
          apply findById_save_same with (r0 := recording). now rewrite H0. }
        exact H1.
Qed.

End ReportSuccess.

(** Witness of C4: the audio scenario, an audio recording claimed in state
    toMp3 and reported complete with the new key f2. *)
Lemma report_success_complete_witness :
  exists db' r',
    report exampleBackend 200 1 "T" true None (Some true) (Some "f2")
      [audioClaimed 1 (Some 10)]
      = (Json 200 ["Processing finished."], db')
    /\ findById 1 db' = Some r'
    /\ processingState r' = Some "FINISHED"
    /\ fileKey r' = Some "f2"
    /\ jobKey r' = None
    /\ processingStartTime r' = None.
Proof.
  apply (report_success_complete exampleBackend 200 1 "T" None (Some "f2")
           [audioClaimed 1 (Some 10)] (audioClaimed 1 (Some 10))
           [] [] "toMp3" "FINISHED");
    try reflexivity.
  - simpl. tauto.
  - intros fieldUpdates r H. discriminate H.
Defined.

(** Counterexample to C4 as stated: the report is successful and complete
    and carries the stored key, yet its field updates are applied after the
    claim is cleared, so the recording ends with the job key K2 and in the
    state toMp3. *)
Lemma report_success_complete_overridden :
  report exampleBackend 200 1 "T" true
    (Some (JObj [("fieldUpdates",
                  JObj [("jobKey", JStr "K2");
                        ("processingState", JStr "toMp3")])]))
    (Some true) (Some "f2") [audioClaimed 1 (Some 10)]
  = (Json 200 ["Processing finished."],
     [mkRecording 1 (Some "audio") (Some 10) None None (Some "f2") None
        (Some "toMp3") (Some "K2")
        [("rawFileKey", JStr "raw"); ("updatedAt", JNum 200)]]).
Proof. reflexivity. Qed.

(** Witness of C6. *)
Lemma nextJob_after_state_report_never_invalid_witness :
  nextJob ["getMetadata"; "toMp4"; "FINISHED"] (Some "toMp4") = Some "FINISHED"
  /\ fst (report exampleBackend 200 1 "T" true None (Some true) (Some "f2")
            [audioClaimed 1 (Some 10)])
     = Json 200 ["Processing finished."].
Proof.
  destruct (nextJob_after_state_report_never_invalid exampleBackend)
    as [Hnext Hreport].
  split.
  - apply (Hnext ["getMetadata"] [] "toMp4" "FINISHED").
    simpl. intros [H|H]; [discriminate H | exact H].
  - apply (Hreport 200 1 "T" None (Some true) (Some "f2")
             [audioClaimed 1 (Some 10)] (audioClaimed 1 (Some 10))
             ["toMp3"; "FINISHED"]); try reflexivity.
    intros fieldUpdates r H. discriminate H.
Defined.

(** Counterexample to C6 as stated: an audio recording claimed in the
    terminal state FINISHED has no next job, and the successful report is
    accepted all the same, with status 200: the claim is released, the file
    key is replaced and the recording stays in the state FINISHED.  For a
    state that is not in the list the report is accepted as well, and the
    recording goes to the first job. *)
Lemma report_terminal_state_accepted :
  nextJob ["toMp3"; "FINISHED"] (Some "FINISHED") = None
  /\ report exampleBackend 200 1 "T" true None (Some true) (Some "f2")
       [with_processingState (Some "FINISHED") (audioClaimed 1 (Some 10))]
     = (Json 200 ["Processing finished."],
        [mkRecording 1 (Some "audio") (Some 10) None None (Some "f2") None
           (Some "FINISHED") None
           [("rawFileKey", JStr "raw"); ("updatedAt", JNum 200)]])
  /\ report exampleBackend 200 1 "T" true None (Some true) (Some "f2")
       [with_processingState (Some "unknown") (audioClaimed 1 (Some 10))]
     = (Json 200 ["Processing finished."],
        [mkRecording 1 (Some "audio") (Some 10) None None (Some "f2") None
           (Some "toMp3") None
           [("rawFileKey", JStr "raw"); ("updatedAt", JNum 200)]]).
Proof. repeat split; reflexivity. Qed.

(* ------------------------------------------------------------------ *)
(** ** The claim pair: job key and start time go together *)

Section ClaimPair.

Variable B : Backend.

Lemma saveClaim_Forall (i : Z) (key : string) (now savedAt : Z)
    (db : Recordings) :
  Forall claimPairOk db -> Forall claimPairOk (saveClaim i key now savedAt db).
Proof.
  intro Hdb. unfold saveClaim. apply updateWhereId_Forall; [|assumption].
  intros x _ _ _. unfold claimPairOk. simpl. split; discriminate.
Qed.

Lemma claimPairOk_same (r r' : Recording) :
  jobKey r' = jobKey r ->
  processingStartTime r' = processingStartTime r ->
  claimPairOk r -> claimPairOk r'.
Proof. unfold claimPairOk. intros -> ->. tauto. Qed.

(** C7 (as amended). If every row has its claim pair both null or both
    set, then so has every row after a claim ([getOneForProcessing]), after
    a report with [success = false], and after a report with
    [success = true] whose field updates name neither [jobKey] nor
    [processingStartTime]; the row a claim returns has both set. *)
Theorem claim_pair_preserved (db : Recordings) :
  Forall claimPairOk db ->
  (forall dbError uuid now savedAt ty st,
      Forall claimPairOk
        (snd (getOneForProcessing dbError uuid now savedAt ty st db))
      /\ forall r,
           fst (getOneForProcessing dbError uuid now savedAt ty st db)
             = Fulfilled (Some r) ->
           jobKey r = Some uuid /\ processingStartTime r = Some now)
  /\ (forall savedAt i key success result complete newProcessedFileKey,
         success = false
         \/ (namesField "jobKey" result = false
             /\ namesField "processingStartTime" result = false) ->
         Forall claimPairOk
           (snd (report B savedAt i key success result complete
                   newProcessedFileKey db))).
Proof.
  intro Hdb. split.
  - intros dbError uuid now savedAt ty st.
    unfold getOneForProcessing, claimTransaction.
    destruct dbError as [e|]; simpl.
    { split; [assumption | discriminate]. }
    destruct (findOneForProcessing ty st db) as [found|]; simpl.
    + split; [now apply saveClaim_Forall|].
      intros r Hr. injection Hr as <-. split; reflexivity.
    + split; [assumption | discriminate].
  - intros savedAt i key success result complete newKey Hcase.
    unfold report.
    destruct (findById i db) as [recording|] eqn:Hfind; [|assumption].
    destruct (findById_In _ _ _ Hfind) as [Hin _].
    assert (Hrec : claimPairOk recording).
    { rewrite Forall_forall in Hdb. now apply Hdb. }
    destruct (negb (opt_string_eqb (Some key) (jobKey recording)));
      [assumption|].
    destruct success.
    + destruct Hcase as [Hcase|[Hjk Hpst]]; [discriminate|].
      destruct (processingStates (type recording)) as [jobs|]; [|assumption].
      set (r3 := if bool_truthy complete then _ else _).
      assert (Hr3 : claimPairOk r3).
      { subst r3. destruct (bool_truthy complete).
        - unfold claimPairOk. simpl. tauto.
        - revert Hrec. apply claimPairOk_same;
            destruct newKey, (nextJob jobs (processingState recording));
            reflexivity. }
      unfold namesField in Hjk, Hpst.
      destruct (fieldUpdatesOf result) as [fieldUpdates|].
      * destruct (updatesFail B fieldUpdates r3); [assumption|].
        simpl. apply save_Forall; [|assumption].
        revert Hr3. apply claimPairOk_same.
        -- apply (mergeUpdate_keeps B jobKey "jobKey");
             auto using set_jobKey_other.
        -- apply (mergeUpdate_keeps B processingStartTime
                    "processingStartTime");
             auto using set_processingStartTime_other.
      * simpl. apply save_Forall; [|assumption].
        revert Hr3. now apply claimPairOk_same.
    + simpl. apply save_Forall; [|assumption].
      unfold claimPairOk. simpl. tauto.
Qed.

End ClaimPair.

(** Witness of C7: a table with one pending and one claimed recording. *)
Lemma claim_pair_preserved_witness :
  Forall claimPairOk
    (snd (getOneForProcessing None "U" 120 121 "audio" "toMp3"
            [audioPending 1 (Some 10); audioClaimed 2 (Some 20)]))
  /\ Forall claimPairOk
       (snd (report exampleBackend 200 2 "T" false None None None
               [audioPending 1 (Some 10); audioClaimed 2 (Some 20)])).
Proof.
  assert (H : Forall claimPairOk
                [audioPending 1 (Some 10); audioClaimed 2 (Some 20)]).
  { apply Forall_cons; [|apply Forall_cons; [|apply Forall_nil]];
      unfold claimPairOk; simpl; split; intro E;
      (reflexivity || discriminate E). }
  destruct (claim_pair_preserved exampleBackend _ H) as [Hclaim Hreport].
  split.
  - exact (proj1 (Hclaim None "U" 120 121 "audio" "toMp3")).
  - apply Hreport. left. reflexivity.
Defined.

(** Counterexample to C7 as stated: a successful, complete report whose
    field updates name [jobKey] leaves the recording with a job key and no
    start time, although the pair was consistent before. *)
Lemma claim_pair_broken_by_fieldUpdates :
  claimPairOk (audioClaimed 1 (Some 10))
  /\ exists r,
       snd (report exampleBackend 200 1 "T" true
              (Some (JObj [("fieldUpdates", JObj [("jobKey", JStr "K2")])]))
              (Some true) (Some "f2") [audioClaimed 1 (Some 10)])
         = [r]
       /\ jobKey r = Some "K2"
       /\ processingStartTime r = None
       /\ ~ claimPairOk r.
Proof.
  split.
  - unfold claimPairOk. simpl. split; discriminate.
  - eexists. split; [reflexivity|]. simpl. split; [reflexivity|].
    split; [reflexivity|]. unfold claimPairOk. simpl.
    intros [_ H]. specialize (H eq_refl). discriminate H.
Qed.

(** What [reprocess] does to a claimed recording: the start time is set to
    null and the state goes back to the first job, but the job key stays,
    so the pair ends half set. *)
Lemma reprocess_keeps_jobKey :
  exists r db' row,
    reprocess 500 501 502 attributeNames (audioClaimed 1 (Some 10))
      (mkDatabase [audioClaimed 1 (Some 10)] [] [] [])
      = (Fulfilled r, db')
    /\ RecordingsTable db' = [row]
    /\ processingState row = Some "toMp3"
    /\ processingStartTime row = None
    /\ jobKey row = Some "T"
    /\ ~ claimPairOk row.
Proof.
  eexists. eexists. eexists. split; [reflexivity|]. simpl.
  repeat (split; [reflexivity|]).
  unfold claimPairOk. simpl. intros [_ H]. specialize (H eq_refl).
  discriminate H.
Qed.

(* ------------------------------------------------------------------ *)
(** ** Claiming a job *)

Lemma desc_before_trans (a b c : option Z) :
  desc_before a b = true -> desc_before b c = true ->
  desc_before a c = true.
Proof.
  unfold desc_before.
  destruct a as [x|], b as [y|], c as [z|]; simpl;
    rewrite ?Z.ltb_lt; try discriminate; try reflexivity; lia.
Qed.

Lemma desc_before_split (a b c : option Z) :
  desc_before a c = true ->
  desc_before a b = true \/ desc_before b c = true.
Proof.
  unfold desc_before.
  destruct a as [x|], b as [y|], c as [z|]; simpl;
    rewrite ?Z.ltb_lt; try discriminate; auto; lia.
Qed.

Lemma first_desc_In (rows : Recordings) (best : Recording) :
  In (first_desc best rows) (best :: rows).
Proof.
  revert best. induction rows as [|r rows IH]; intro best; simpl.
  - now left.
  - specialize (IH (if desc_before (recordingDateTime r)
                         (recordingDateTime best) then r else best)).
    destruct IH as [IH|IH]; [|now right; right].
    rewrite <- IH.
    destruct (desc_before (recordingDateTime r) (recordingDateTime best));
      auto.
Qed.

(** No row of the result sorts before the one returned. *)
Lemma first_desc_first (rows : Recordings) (best x : Recording) :
  In x (best :: rows) ->
  desc_before (recordingDateTime x)
    (recordingDateTime (first_desc best rows)) = false.
Proof.
  revert best x. induction rows as [|r rows IH]; intros best x Hin.
  - simpl. destruct Hin as [<-|[]].
    unfold desc_before. destruct (recordingDateTime best); [|reflexivity].
    apply Z.ltb_irrefl.
  - cbn [first_desc].
    set (best' := if desc_before (recordingDateTime r)
                       (recordingDateTime best) then r else best).
    assert (Hbest' : desc_before (recordingDateTime best')
                       (recordingDateTime (first_desc best' rows)) = false)
      by (apply IH; now left).
    destruct Hin as [<-|[<-|Hin]].
    + subst best'.
      destruct (desc_before (recordingDateTime r) (recordingDateTime best))
        eqn:E; [|assumption].
      destruct (desc_before (recordingDateTime best)
                  (recordingDateTime (first_desc r rows))) eqn:E'; [|reflexivity].
      rewrite (desc_before_trans _ _ _ E E') in Hbest'. discriminate.
    + subst best'.
      destruct (desc_before (recordingDateTime r) (recordingDateTime best))
        eqn:E; [assumption|].
      destruct (desc_before (recordingDateTime r)
                  (recordingDateTime (first_desc best rows))) eqn:E'; [|reflexivity].
      destruct (desc_before_split _ (recordingDateTime best) _ E'); congruence.
    + apply IH. now right.
Qed.

Lemma claimable_fields (ty st : string) (r : Recording) :
  claimable ty st r = true <->
  type r = Some ty /\ processingState r = Some st
  /\ processingStartTime r = None.
Proof.
  unfold claimable. rewrite !andb_true_iff, !opt_string_eqb_eq.
  destruct (processingStartTime r); simpl; intuition congruence.
Qed.

(** What the locked SELECT finds. *)
Lemma findOneForProcessing_spec (ty st : string) (db : Recordings) :
  match findOneForProcessing ty st db with
  | Some found =>
      In found db /\ claimable ty st found = true
      /\ forall r, In r db -> claimable ty st r = true ->
                   desc_before (recordingDateTime r)
                     (recordingDateTime found) = false
  | None => forall r, In r db -> claimable ty st r = false
  end.
Proof.
  unfold findOneForProcessing.
  destruct (filter (claimable ty st) db) as [|r0 rows] eqn:E.
  - intros r Hin. destruct (claimable ty st r) eqn:Hc; [|reflexivity].
    assert (H : In r (filter (claimable ty st) db))
      by (apply filter_In; auto).
    rewrite E in H. destruct H.
  - assert (Hin : In (first_desc r0 rows) (filter (claimable ty st) db))
      by (rewrite E; apply first_desc_In).
    apply filter_In in Hin. destruct Hin as [Hin Hc].
    split; [assumption|]. split; [assumption|].
    intros r Hr Hcr. apply first_desc_first. rewrite <- E.
    apply filter_In; auto.
Qed.

(** The same in terms of the columns: the row found has the type and the
    state asked for and no start time; a row of the table that has them
    too is not later, and has no date only if the row found has none; when
    no row is found, no row of the table has the three. *)
Lemma findOneForProcessing_columns (ty st : string) (db : Recordings) :
  match findOneForProcessing ty st db with
  | Some found =>
      In found db
      /\ type found = Some ty
      /\ processingState found = Some st
      /\ processingStartTime found = None
      /\ (forall r, In r db ->
            type r = Some ty -> processingState r = Some st ->
            processingStartTime r = None ->
            recordingDateTime r = None -> recordingDateTime found = None)
      /\ (forall r d d', In r db ->
            type r = Some ty -> processingState r = Some st ->
            processingStartTime r = None ->
            recordingDateTime r = Some d' ->
            recordingDateTime found = Some d -> d' <= d)
  | None =>
      forall r, In r db ->
        ~ (type r = Some ty /\ processingState r = Some st
           /\ processingStartTime r = None)
  end.
Proof.
  pose proof (findOneForProcessing_spec ty st db) as Hspec.
  destruct (findOneForProcessing ty st db) as [found|].
  - destruct Hspec as (Hin & Hc & Hfirst).
    apply claimable_fields in Hc. destruct Hc as (Hty & Hst & Hpst).
    repeat (split; [assumption|]).
    split.
    + intros r Hr H1 H2 H3 Hd.
      assert (Hcr : claimable ty st r = true) by (apply claimable_fields; auto).
      specialize (Hfirst r Hr Hcr). rewrite Hd in Hfirst.
      destruct (recordingDateTime found); [discriminate Hfirst | reflexivity].
    + intros r d d' Hr H1 H2 H3 Hd' Hd.
      assert (Hcr : claimable ty st r = true) by (apply claimable_fields; auto).
      specialize (Hfirst r Hr Hcr). rewrite Hd', Hd in Hfirst.
      simpl in Hfirst. now apply Z.ltb_ge in Hfirst.
  - intros r Hr Hc. apply claimable_fields in Hc.
    rewrite (Hspec r Hr) in Hc. discriminate Hc.
Qed.

(** X31. [getOneForProcessing] never rejects.  It resolves to a recording
    exactly when the database raises no error and some row has the type
    asked for, the state asked for and no [processingStartTime].  The row
    it picks is such a row; if one of these rows has no
    [recordingDateTime] the row picked has none, otherwise it is the most
    recent of them.  The instance returned is that row with [jobKey] the
    fresh key and [processingStartTime] the current time, and the same
    stamp is written to the table.  Otherwise it resolves to null and the
    table is as before. *)
Theorem getOneForProcessing_resolves
    (dbError : option string) (uuid : string) (now savedAt : Z)
    (ty st : string) (db : Recordings) :
  exists result db',
    getOneForProcessing dbError uuid now savedAt ty st db
      = (Fulfilled result, db')
    /\ match result with
       | Some recording =>
           dbError = None
           /\ exists found,
                In found db
                /\ type found = Some ty
                /\ processingState found = Some st
                /\ processingStartTime found = None
                /\ (forall r, In r db ->
                      type r = Some ty -> processingState r = Some st ->
                      processingStartTime r = None ->
                      recordingDateTime r = None ->
                      recordingDateTime found = None)
                /\ (forall r d d', In r db ->
                      type r = Some ty -> processingState r = Some st ->
                      processingStartTime r = None ->
                      recordingDateTime r = Some d' ->
                      recordingDateTime found = Some d -> d' <= d)
                /\ id recording = id found
                /\ type recording = Some ty
                /\ processingState recording = Some st
                /\ fileKey recording = fileKey found
                /\ jobKey recording = Some uuid
                /\ processingStartTime recording = Some now
                /\ db' = saveClaim (id found) uuid now savedAt db
                /\ In (touch savedAt
                         (with_processingStartTime (Some now)
                            (with_jobKey (Some uuid) found))) db'
       | None =>
           db' = db
           /\ (dbError <> None
               \/ forall r, In r db ->
                    ~ (type r = Some ty /\ processingState r = Some st
                       /\ processingStartTime r = None))
       end.
Proof.
  unfold getOneForProcessing, claimTransaction.
  destruct dbError as [e|].
  { exists None, db. simpl. split; [reflexivity|]. split; [reflexivity|].
    left. discriminate. }
  pose proof (findOneForProcessing_columns ty st db) as Hspec.
  destruct (findOneForProcessing ty st db) as [found|].
  - destruct Hspec as (Hin & Hty & Hst & Hpst & Hnull & Hdate).
    eexists. eexists. simpl. split; [reflexivity|].
    split; [reflexivity|]. exists found.
    repeat (split; [reflexivity || assumption|]).
    unfold saveClaim, updateWhereId. apply in_map_iff. exists found.
    rewrite Z.eqb_refl. auto.
  - exists None, db. simpl. split; [reflexivity|]. split; [reflexivity|].
    right. exact Hspec.
Qed.

(** C2 (the code at the failing input). Three audio recordings wait for
    the job toMp3: recording 1 was made at time 10, recording 3 at time 30,
    and recording 2 has no [recordingDateTime].  The claim hands out
    recording 2, not the most recent one: recording 3 is left waiting. *)
Lemma getOneForProcessing_undated_first :
  exists recording db',
    getOneForProcessing None "U" 100 101 "audio" "toMp3"
      [audioPending 1 (Some 10); audioPending 2 None; audioPending 3 (Some 30)]
    = (Fulfilled (Some recording), db')
    /\ id recording = 2
    /\ jobKey recording = Some "U"
    /\ db' = [audioPending 1 (Some 10);
              touch 101 (with_processingStartTime (Some 100)
                           (with_jobKey (Some "U") (audioPending 2 None)));
              audioPending 3 (Some 30)].
Proof.
  eexists. eexists. split; [reflexivity|]. repeat split.
Qed.

(** X1. Two claims made one after the other never return the same row. *)
Lemma serial_claims_distinct
    (uuid1 uuid2 : string) (now1 now2 savedAt1 savedAt2 : Z)
    (ty1 st1 ty2 st2 : string)
    (dbError2 : option string) (db db1 db2 : Recordings)
    (r1 r2 : Recording) :
  getOneForProcessing None uuid1 now1 savedAt1 ty1 st1 db
    = (Fulfilled (Some r1), db1) ->
  getOneForProcessing dbError2 uuid2 now2 savedAt2 ty2 st2 db1
    = (Fulfilled (Some r2), db2) ->
  id r1 <> id r2.
Proof.
  intros H1 H2.
  unfold getOneForProcessing, claimTransaction in H1, H2.
  destruct (findOneForProcessing ty1 st1 db) as [f1|];
    simpl in H1; [|discriminate H1].
  injection H1 as <- <-.
  destruct dbError2 as [e|]; simpl in H2; [discriminate H2|].
  pose proof (findOneForProcessing_spec ty2 st2
                (saveClaim (id f1) uuid1 now1 savedAt1 db)) as Hspec.
  destruct (findOneForProcessing ty2 st2
              (saveClaim (id f1) uuid1 now1 savedAt1 db))
    as [f2|]; simpl in H2; [|discriminate H2].
  injection H2 as <- <-. simpl.
  destruct Hspec as (Hin2 & Hc2 & _).
  apply claimable_fields in Hc2. destruct Hc2 as (_ & _ & Hpst2).
  unfold saveClaim, updateWhereId in Hin2. apply in_map_iff in Hin2.
  destruct Hin2 as (x & Hx & _).
  destruct (Z.eqb (id x) (id f1)) eqn:E.
  - subst f2. simpl in Hpst2. discriminate.
  - subst f2. apply Z.eqb_neq in E. congruence.
Qed.

(* ------------------------------------------------------------------ *)
(** ** Tag modes *)

Section TagModes.

Import QueryBuilder.

(** [notTagOfType] is the negation of [tagOfType] on every database. *)
Lemma notTagOfType_negates (db : Database) (rid : Z)
    (tagWhats : option (list string)) (tagTypeSql : option cond) :
  evalPred db rid (notTagOfType tagWhats tagTypeSql)
  = negb (evalPred db rid (tagOfType tagWhats tagTypeSql)).
Proof. simpl. now rewrite negb_orb. Qed.

(** C8. With an empty list of tag names, the condition built for the mode
    "untagged" is the negation of the one built for the mode "tagged": on
    every database and for every recording, exactly one of the two holds. *)
Theorem untagged_negates_tagged (db : Database) (rid : Z) :
  exists untagged tagged,
    handleTagMode (Some "untagged") (Some []) = Returned untagged
    /\ handleTagMode (Some "tagged") (Some []) = Returned tagged
    /\ evalPred db rid untagged = negb (evalPred db rid tagged)
    /\ xorb (evalPred db rid untagged) (evalPred db rid tagged) = true.
Proof.
  exists (notTagOfType None None), (tagOfType None None).
  split; [reflexivity|]. split; [reflexivity|].
  rewrite notTagOfType_negates. split; [reflexivity|].
  now destruct (evalPred db rid (tagOfType None None)).
Qed.

Lemma holds_or3 (a b : truth) : holds (or3 a b) = holds a || holds b.
Proof. destruct a as [[|]|], b as [[|]|]; reflexivity. Qed.

Lemma holds_joined (row : TagRow) (ps : list cond) (p : cond) :
  holds (evalCond (fold_left Or ps p) row)
  = holds (evalCond p row) || existsb (fun c => holds (evalCond c row)) ps.
Proof.
  revert p. induction ps as [|q ps IH]; intro p; simpl.
  - now rewrite orb_false_r.
  - rewrite IH. simpl. rewrite holds_or3. now rewrite orb_assoc.
Qed.

(** The parts pushed for one name hold on a row exactly when the name
    matches the row. *)
Lemma partsFor_matches (usesDetail : bool) (name : string) (row : TagRow) :
  existsb (fun c => holds (evalCond c row)) (partsFor name "what" usesDetail)
  = nameMatches usesDetail name row.
Proof.
  unfold partsFor, nameMatches.
  destruct row as [w d a].
  destruct (String.eqb name "interesting"), usesDetail; simpl;
    unfold column; simpl;
    destruct w as [w|], d as [d|]; simpl;
    repeat match goal with
           | |- context [String.eqb ?x ?y] => destruct (String.eqb x y)
           end;
    reflexivity.
Qed.

(** C9 (as amended). No condition is built for an absent or empty list of
    names.  For a non-empty list of names that hold no quote (nor
    backslash), the condition built by [selectByTagWhat] holds on a tag
    exactly when one of the names matches it, where a name other than
    "interesting" matches a tag whose [what] is the name or, for
    recording-level tags only, whose [detail] is the name; and
    "interesting" matches, at recording level, a tag whose [what] is not
    "bird" and whose [detail] is not "false positive", and at track level a
    tag that has a [what] which is neither "bird" nor "false positive". *)
Theorem selectByTagWhat_matches_some_name
    (usesDetail : bool) (name : string) (names : list string)
    (row : TagRow) :
  forallb plainName (name :: names) = true ->
  selectByTagWhat None "what" usesDetail = None
  /\ selectByTagWhat (Some []) "what" usesDetail = None
  /\ exists c,
       selectByTagWhat (Some (name :: names)) "what" usesDetail = Some c
       /\ holds (evalCond c row)
          = existsb (fun n => nameMatches usesDetail n row) (name :: names).
Proof.
  intros _.
  split; [reflexivity|]. split; [reflexivity|].
  unfold selectByTagWhat.
  assert (Hall : forall ns,
             existsb (fun c => holds (evalCond c row))
               (flat_map (fun tag => partsFor tag "what" usesDetail) ns)
             = existsb (fun n => nameMatches usesDetail n row) ns).
  { induction ns as [|n ns IH]; [reflexivity|].
    simpl. rewrite existsb_app, IH, partsFor_matches. reflexivity. }
  specialize (Hall (name :: names)).
  destruct (flat_map (fun tag => partsFor tag "what" usesDetail)
              (name :: names)) as [|p ps] eqn:E.
  - exfalso. simpl in E. unfold partsFor in E.
    destruct (String.eqb name "interesting"), usesDetail; discriminate E.
  - exists (fold_left Or ps p). split; [reflexivity|].
    rewrite holds_joined, <- Hall. reflexivity.
Qed.

(** Counterexample to C9 as stated: for track-level tags the name
    "interesting" does not match a tag whose [what] is "false positive",
    although that [what] is not "bird". *)
Lemma interesting_track_tag_false_positive :
  let row := mkTagRow (Some "false positive") None (Some true) in
  exists c,
    selectByTagWhat (Some ["interesting"]) "what" false = Some c
    /\ holds (evalCond c row) = false
    /\ existsb (fun n => nameMatchesSpec false n row) ["interesting"] = true.
Proof.
  eexists. split; [reflexivity|]. split; reflexivity.
Qed.

End TagModes.

(** Witness of C9: the names possum and interesting, on a recording-level
    tag whose [detail] is possum. *)
Lemma selectByTagWhat_matches_some_name_witness :
  forallb QueryBuilder.plainName ["possum"; "interesting"] = true
  /\ exists c,
       QueryBuilder.selectByTagWhat (Some ["possum"; "interesting"]) "what"
         true = Some c
       /\ QueryBuilder.holds
            (QueryBuilder.evalCond c
               (QueryBuilder.mkTagRow (Some "bird") (Some "possum")
                  (Some false)))
          = true.
Proof.
  split; [reflexivity|].
  destruct (selectByTagWhat_matches_some_name true "possum" ["interesting"]
              (QueryBuilder.mkTagRow (Some "bird") (Some "possum")
                 (Some false)) eq_refl)
    as (_ & _ & c & Hc & Hholds).
  exists c. split; [exact Hc|]. rewrite Hholds. reflexivity.
Defined.

(* ------------------------------------------------------------------ *)
(** ** The precision floor *)

Local Open Scope Q_scope.

(** C10. For a user without global write access, the precision that
    [filterData] works with is never below 100 metres, whatever is asked
    for: the filtered recording is the recording with its coordinates
    reduced by [reduceLatLonPrecision] at a precision that is at least 100.
    Asking for 1 metre gives the reduction at 100 metres, the same
    recording as asking for 100 metres; and it is not what a user with
    global write access gets for the same request, whose coordinates
    differ. *)
Theorem precision_floor (user : User) (this : Recording) :
  hasGlobalWrite user = false ->
  filterData (makeFilterOptions user (mkFilterOptions (Some 1))) this
  = filterData (makeFilterOptions user (mkFilterOptions (Some 100))) this
  /\ filterData (makeFilterOptions user (mkFilterOptions (Some 1))) this
     = match location this with
       | Some loc =>
           option_map
             (fun latLon => with_location (Some (mkPoint latLon)) this)
             (reduceLatLonPrecision (coordinates loc) (Some 100))
       | None => Some this
       end
  /\ (forall options,
        exists prec,
          latLongPrec (makeFilterOptions user options) = Some prec
          /\ 100 <= prec
          /\ filterData (makeFilterOptions user options) this
             = match location this with
               | Some loc =>
                   option_map
                     (fun latLon => with_location (Some (mkPoint latLon)) this)
                     (reduceLatLonPrecision (coordinates loc) (Some prec))
               | None => Some this
               end)
  /\ (forall admin,
        hasGlobalWrite admin = true ->
        exists a1 a2 u1 u2,
          filterData (makeFilterOptions admin (mkFilterOptions (Some 1)))
            christchurch
          = Some (with_location (Some (mkPoint [Some a1; Some a2]))
                    christchurch)
          /\ filterData (makeFilterOptions user (mkFilterOptions (Some 1)))
               christchurch
             = Some (with_location (Some (mkPoint [Some u1; Some u2]))
                       christchurch)
          /\ ~ a1 == u1 /\ ~ a2 == u2).
Proof.
  intro Hw.
  assert (Hfilter : forall prec,
             filterData (mkFilterOptions (Some prec)) this
             = match location this with
               | Some loc =>
                   option_map
                     (fun latLon => with_location (Some (mkPoint latLon)) this)
                     (reduceLatLonPrecision (coordinates loc) (Some prec))
               | None => Some this
               end).
  { intro prec. unfold filterData. destruct (location this) as [loc|];
      [|reflexivity].
    simpl. now destruct (reduceLatLonPrecision _ _). }
  split; [|split; [|split]].
  - unfold makeFilterOptions. rewrite Hw. reflexivity.
  - unfold makeFilterOptions. rewrite Hw. apply (Hfilter 100).
  - intro options. unfold makeFilterOptions. rewrite Hw. simpl.
    eexists. split; [reflexivity|]. split; [apply Q.le_max_r|].
    apply Hfilter.
  - intros admin Ha. unfold makeFilterOptions. rewrite Hw, Ha.
    eexists. eexists. eexists. eexists.
    split; [reflexivity|]. split; [reflexivity|].
    split; intro H; vm_compute in H; discriminate H.
Qed.

Local Close Scope Q_scope.

(** Witness of C10: a user with no global access and a location near
    Christchurch. *)
Lemma precision_floor_witness :
  filterData
    (makeFilterOptions (mkUser false false) (mkFilterOptions (Some 1%Q)))
    christchurch
  = filterData
      (makeFilterOptions (mkUser false false) (mkFilterOptions (Some 100%Q)))
      christchurch
  /\ exists prec,
       latLongPrec
         (makeFilterOptions (mkUser false false) (mkFilterOptions (Some 5%Q)))
       = Some prec
       /\ (100 <= prec)%Q.
Proof.
  destruct (precision_floor (mkUser false false) christchurch eq_refl)
    as (H1 & _ & H3 & _).
  split; [exact H1|].
  destruct (H3 (mkFilterOptions (Some 5%Q))) as (prec & Hp & Hle & _).
  exists prec. split; assumption.
Defined.

(* ------------------------------------------------------------------ *)
(** ** More on claims and reports *)

(** Witness of [serial_claims_distinct]: two claims on a table of two
    pending recordings. *)
Lemma serial_claims_distinct_witness :
  exists r1 r2 db1 db2,
    getOneForProcessing None "U1" 100 101 "audio" "toMp3"
      [audioPending 1 (Some 10); audioPending 2 (Some 20)]
      = (Fulfilled (Some r1), db1)
    /\ getOneForProcessing None "U2" 102 103 "audio" "toMp3" db1
       = (Fulfilled (Some r2), db2)
    /\ id r1 <> id r2.
Proof.
  eexists. eexists. eexists. eexists.
  split; [reflexivity|]. split; [reflexivity|].
  eapply (serial_claims_distinct "U1" "U2" 100 102 101 103
            "audio" "toMp3" "audio" "toMp3" None
            [audioPending 1 (Some 10); audioPending 2 (Some 20)]);
    reflexivity.
Defined.

Lemma unique_by_id (db : Recordings) (x y : Recording) :
  NoDup (map id db) -> In x db -> In y db -> id x = id y -> x = y.
Proof.
  induction db as [|a db IH]; intros Hnd Hx Hy Heq; [destruct Hx|].
  simpl in Hnd. inversion Hnd as [|? ? Hnotin Hnd']; subst.
  destruct Hx as [<-|Hx], Hy as [<-|Hy].
  - reflexivity.
  - exfalso. apply Hnotin. rewrite Heq. now apply in_map.
  - exfalso. apply Hnotin. rewrite <- Heq. now apply in_map.
  - now apply IH.
Qed.

Lemma findById_unique (db : Recordings) (r : Recording) :
  NoDup (map id db) -> In r db -> findById (id r) db = Some r.
Proof.
  intros Hnd Hin. unfold findById.
  destruct (find (fun x => Z.eqb (id x) (id r)) db) as [x|] eqn:E.
  - apply find_some in E. destruct E as [Hx Hid].
    apply Z.eqb_eq in Hid. f_equal. now apply (unique_by_id db).
  - exfalso. apply (find_none _ _ E) in Hin. rewrite Z.eqb_refl in Hin.
    discriminate.
Qed.

Section MoreReports.

Variable B : Backend.

(** X2. A claim followed by the report of a failure, with the key the claim
    gave, puts every column of the table back as it was, except the
    [updatedAt] of the recording claimed, which is the time of the last
    save; this when ids are unique and every row has a consistent claim
    pair. *)
Theorem claim_then_failed_report_restores
    (uuid : string) (now savedAt1 savedAt2 : Z) (ty st : string)
    (db db1 : Recordings)
    (recording : Recording) (result : option JSON) (complete : option bool)
    (newProcessedFileKey : option string) :
  NoDup (map id db) ->
  Forall claimPairOk db ->
  getOneForProcessing None uuid now savedAt1 ty st db
    = (Fulfilled (Some recording), db1) ->
  report B savedAt2 (id recording) uuid false result complete
    newProcessedFileKey db1
    = (Json 200 ["Processing failed."],
       updateWhereId (id recording) (touch savedAt2) db).
Proof.
  intros Hnd Hok Hclaim.
  unfold getOneForProcessing, claimTransaction in Hclaim.
  pose proof (findOneForProcessing_spec ty st db) as Hspec.
  destruct (findOneForProcessing ty st db) as [found|];
    simpl in Hclaim; [|discriminate Hclaim].
  injection Hclaim as <- <-. simpl.
  destruct Hspec as (Hin & Hc & _).
  apply claimable_fields in Hc. destruct Hc as (_ & _ & Hpst).
  assert (Hjk : jobKey found = None).
  { rewrite Forall_forall in Hok. apply (Hok found Hin). exact Hpst. }
  unfold report, saveClaim.
  rewrite (findById_updateWhereId_same (id found) _ db found)
    by (reflexivity || now apply findById_unique).
  simpl. rewrite String.eqb_refl. simpl.
  f_equal. unfold save, updateWhereId. rewrite map_map. simpl.
  apply map_ext_in.
  intros x Hx. destruct (Z.eqb (id x) (id found)) eqn:E; simpl.
  - rewrite E. apply Z.eqb_eq in E.
    rewrite (unique_by_id db x found Hnd Hx Hin E).
    destruct found; simpl in *. subst.
    unfold touch, with_others. simpl. now rewrite obj_set_set.
  - now rewrite E.
Qed.

Lemma report_failure_row_in
    (savedAt : Z) (i : Z) (key : string) (result : option JSON)
    (complete : option bool)
    (newProcessedFileKey : option string) (db : Recordings)
    (recording : Recording) :
  findById i db = Some recording ->
  jobKey recording = Some key ->
  exists r',
    In r' (snd (report B savedAt i key false result complete
                  newProcessedFileKey db))
    /\ (type r' = type recording
        /\ processingState r' = processingState recording
        /\ processingStartTime r' = None).
Proof.
  intros Hfind Hkey.
  destruct (findById_In _ _ _ Hfind) as [_ Hid].
  set (r' := with_jobKey None (with_processingStartTime None recording)).
  exists (touch savedAt r'). split; [|repeat split].
  unfold report. rewrite Hfind, Hkey. simpl. rewrite String.eqb_refl. simpl.
  fold r'.
  assert (H : findById (id r') (save savedAt r' db) = Some (touch savedAt r')).
  { apply findById_save_same with (r0 := recording). simpl. now rewrite Hid. }
  now apply findById_In in H.
Qed.

(** X3. After the report of a failure the recording can be claimed again for
    the stage it is in: a claim for its type and state resolves to a
    recording. *)
Theorem failed_report_then_claim_resolves
    (savedAt : Z) (i : Z) (key : string) (result : option JSON)
    (complete : option bool)
    (newProcessedFileKey : option string) (db : Recordings)
    (recording : Recording) (ty st : string) (uuid : string)
    (now savedAt' : Z) :
  findById i db = Some recording ->
  jobKey recording = Some key ->
  type recording = Some ty ->
  processingState recording = Some st ->
  exists claimed db2,
    getOneForProcessing None uuid now savedAt' ty st
      (snd (report B savedAt i key false result complete
              newProcessedFileKey db))
    = (Fulfilled (Some claimed), db2).
Proof.
  intros Hfind Hkey Hty Hst.
  destruct (report_failure_row_in savedAt i key result complete
              newProcessedFileKey db recording Hfind Hkey)
    as (r' & Hin & Hc).
  unfold getOneForProcessing, claimTransaction.
  pose proof (findOneForProcessing_spec ty st
                (snd (report B savedAt i key false result complete
                        newProcessedFileKey db))) as Hspec.
  destruct (findOneForProcessing ty st _) as [found|].
  - simpl. eauto.
  - exfalso. specialize (Hspec r' Hin).
    assert (claimable ty st r' = true).
    { apply claimable_fields. destruct Hc as (H1 & H2 & H3).
      rewrite H1, H2, H3. auto. }
    congruence.
Qed.

End MoreReports.

(** Witness of [claim_then_failed_report_restores]: the recording claimed
    is the later one, and only its [updatedAt] is left of the claim. *)
Lemma claim_then_failed_report_restores_witness :
  report exampleBackend 200 2 "U" false None None None
    (snd (getOneForProcessing None "U" 100 101 "audio" "toMp3"
            [audioPending 1 (Some 10); audioPending 2 (Some 20)]))
  = (Json 200 ["Processing failed."],
     [audioPending 1 (Some 10); touch 200 (audioPending 2 (Some 20))]).
Proof.
  apply (claim_then_failed_report_restores exampleBackend "U" 100 101 200
           "audio" "toMp3"
           [audioPending 1 (Some 10); audioPending 2 (Some 20)] _
           (touch 101
              (with_processingStartTime (Some 100)
                 (with_jobKey (Some "U")
                    (selectProcessingAttributes (audioPending 2 (Some 20))))))).
  - simpl. apply NoDup_cons; [|apply NoDup_cons; [|apply NoDup_nil]].
    + simpl. intros [H|H]; [discriminate H | exact H].
    + simpl. intros H; exact H.
  - apply Forall_cons; [|apply Forall_cons; [|apply Forall_nil]];
      unfold claimPairOk; simpl; split; reflexivity.
  - reflexivity.
Defined.

(** Witness of [failed_report_then_claim_resolves]. *)
Lemma failed_report_then_claim_resolves_witness :
  exists claimed db2,
    getOneForProcessing None "U" 100 101 "audio" "toMp3"
      (snd (report exampleBackend 200 1 "T" false None None None
              [audioClaimed 1 (Some 10)]))
    = (Fulfilled (Some claimed), db2).
Proof.
  apply (failed_report_then_claim_resolves exampleBackend 200 1 "T" None None
           None [audioClaimed 1 (Some 10)] (audioClaimed 1 (Some 10))
           "audio" "toMp3" "U" 100 101); reflexivity.
Defined.

Lemma save_ids (t : Z) (r : Recording) (db : Recordings) :
  map id (save t r db) = map id db.
Proof.
  unfold save, updateWhereId. rewrite map_map. apply map_ext.
  intro x. destruct (Z.eqb (id x) (id r)) eqn:E; [|reflexivity].
  apply Z.eqb_eq in E. now symmetry.
Qed.

Section ReportFrame.

Variable B : Backend.

(** The row a report saves, if it saves one, has the id asked for. *)
Lemma report_saves_row_of_id
    (savedAt : Z) (i : Z) (key : string) (success : bool)
    (result : option JSON)
    (complete : option bool) (newProcessedFileKey : option string)
    (db : Recordings) :
  snd (report B savedAt i key success result complete newProcessedFileKey db)
  = db
  \/ exists r, id r = i
               /\ snd (report B savedAt i key success result complete
                         newProcessedFileKey db) = save savedAt r db.
Proof.
  unfold report.
  destruct (findById i db) as [recording|] eqn:Hfind; [|now left].
  destruct (findById_In _ _ _ Hfind) as [_ Hid].
  destruct (negb (opt_string_eqb (Some key) (jobKey recording)));
    [now left|].
  destruct success.
  - destruct (processingStates (type recording)) as [jobs|]; [|now left].
    set (r3 := if bool_truthy complete then _ else _).
    assert (H3 : id r3 = i).
    { subst r3.
      destruct (bool_truthy complete), newProcessedFileKey,
        (nextJob jobs (processingState recording)); exact Hid. }
    destruct (fieldUpdatesOf result) as [u|].
    + destruct (updatesFail B u r3); [now left|].
      right. simpl. eexists. split; [|reflexivity].
      now rewrite mergeUpdate_id.
    + right. simpl. eauto.
  - right. simpl. eexists. split; [|reflexivity]. exact Hid.
Qed.

(** X4. Claims and reports neither add nor delete rows nor change an id, and a
    report leaves every row with another id as it was. *)
Theorem processing_keeps_rows
    (dbError : option string) (uuid : string) (now savedAt : Z)
    (ty st : string)
    (i : Z) (key : string) (success : bool) (result : option JSON)
    (complete : option bool) (newProcessedFileKey : option string)
    (body : PutBody) (db : Recordings) :
  map id (snd (getOneForProcessing dbError uuid now savedAt ty st db))
  = map id db
  /\ map id (snd (report B savedAt i key success result complete
                    newProcessedFileKey db)) = map id db
  /\ map id (snd (putFileProcessing B savedAt body db)) = map id db
  /\ (forall j, j <> i ->
        findById j (snd (report B savedAt i key success result complete
                           newProcessedFileKey db))
        = findById j db).
Proof.
  assert (Hrep : forall i key success result complete k,
             map id (snd (report B savedAt i key success result complete k db))
             = map id db).
  { intros i' key' s' res' c' k'.
    destruct (report_saves_row_of_id savedAt i' key' s' res' c' k' db)
      as [->|(r & _ & ->)]; [reflexivity | apply save_ids]. }
  split; [|split; [|split]].
  - unfold getOneForProcessing, claimTransaction.
    destruct dbError; simpl; [reflexivity|].
    destruct (findOneForProcessing ty st db); simpl; [|reflexivity].
    unfold saveClaim. now apply updateWhereId_ids.
  - apply Hrep.
  - unfold putFileProcessing.
    destruct (errorMessages body); [|reflexivity].
    destruct (body_id body), (body_jobKey body), (body_success body);
      simpl; try reflexivity. apply Hrep.
  - intros j Hj.
    destruct (report_saves_row_of_id savedAt i key success result complete
                newProcessedFileKey db) as [->|(r & Hr & ->)];
      [reflexivity|].
    apply findById_save_other. congruence.
Qed.

(** X5. A report for an id that no recording has, and the report of a
    success, with the right key, for a recording whose type has no list of
    jobs, end in an exception that nobody handles; whenever a report ends
    so, for these or for field updates that are refused, the table is as
    before.  Every other report is answered: for a recording that exists, a
    report with a wrong key, the report of a failure, and the report of a
    success for a type that has a list of jobs, with field updates that
    are not refused. *)
Theorem report_unhandled_leaves_table
    (savedAt : Z) (i : Z) (key : string) (success : bool)
    (result : option JSON)
    (complete : option bool) (newProcessedFileKey : option string)
    (db : Recordings) :
  (findById i db = None ->
   exists e,
     report B savedAt i key success result complete newProcessedFileKey db
     = (Unhandled e, db))
  /\ (forall recording,
        findById i db = Some recording ->
        jobKey recording = Some key ->
        success = true ->
        processingStates (type recording) = None ->
        exists e,
          report B savedAt i key success result complete
            newProcessedFileKey db
          = (Unhandled e, db))
  /\ (forall e,
        fst (report B savedAt i key success result complete
               newProcessedFileKey db)
        = Unhandled e ->
        snd (report B savedAt i key success result complete
               newProcessedFileKey db)
        = db)
  /\ (forall recording,
        findById i db = Some recording ->
        jobKey recording <> Some key
        \/ success = false
        \/ (processingStates (type recording) <> None
            /\ updatesAccepted B result) ->
        exists status messages,
          fst (report B savedAt i key success result complete
                 newProcessedFileKey db)
          = Json status messages).
Proof.
  split; [|split; [|split]].
  - intro Hfind. unfold report. rewrite Hfind. eauto.
  - intros recording Hfind Hkey -> Hjobs. unfold report.
    rewrite Hfind, Hkey, Hjobs. simpl. rewrite String.eqb_refl. simpl. eauto.
  - intro e. unfold report.
    destruct (findById i db) as [recording|]; [|reflexivity].
    destruct (negb (opt_string_eqb (Some key) (jobKey recording)));
      [reflexivity|].
    destruct success; [|discriminate].
    destruct (processingStates (type recording)) as [jobs|]; [|reflexivity].
    destruct (fieldUpdatesOf result) as [u|]; [|discriminate].
    match goal with
    | |- context [updatesFail B u ?r] => destruct (updatesFail B u r)
    end; [reflexivity | discriminate].
  - intros recording Hfind Hcase. unfold report. rewrite Hfind.
    destruct (opt_string_eqb (Some key) (jobKey recording)) eqn:Ek;
      cbn [negb]; [|simpl; eauto].
    apply opt_string_eqb_eq in Ek.
    destruct Hcase as [Hkey|[Hs|[Hjobs Hacc]]].
    + congruence.
    + rewrite Hs. simpl. eauto.
    + destruct success; [|simpl; eauto].
      destruct (processingStates (type recording)) as [jobs|]; [|congruence].
      destruct (fieldUpdatesOf result) as [u|] eqn:Eu; [|simpl; eauto].
      rewrite (Hacc u _ Eu). simpl. eauto.
Qed.

(** X6. A job in two steps: for a thermal recording claimed in the state
    getMetadata, a successful report that is not complete moves it to toMp4
    with the claim kept, and a second successful report with the same key,
    complete this time, ends it in FINISHED with the claim released.  Each
    report replaces the file key by the one it gives. *)
Theorem report_two_steps_thermalRaw
    (savedAt1 savedAt2 : Z) (i : Z) (key : string) (newKey1 newKey2 : string)
    (db : Recordings) (recording : Recording) :
  findById i db = Some recording ->
  jobKey recording = Some key ->
  type recording = Some "thermalRaw" ->
  processingState recording = Some "getMetadata" ->
  exists db1 r1 db2 r2,
    report B savedAt1 i key true None (Some false) (Some newKey1) db
      = (Json 200 ["Processing finished."], db1)
    /\ findById i db1 = Some r1
    /\ processingState r1 = Some "toMp4"
    /\ fileKey r1 = Some newKey1
    /\ jobKey r1 = Some key
    /\ processingStartTime r1 = processingStartTime recording
    /\ report B savedAt2 i key true None (Some true) (Some newKey2) db1
       = (Json 200 ["Processing finished."], db2)
    /\ findById i db2 = Some r2
    /\ processingState r2 = Some "FINISHED"
    /\ fileKey r2 = Some newKey2
    /\ jobKey r2 = None
    /\ processingStartTime r2 = None.
Proof.
  intros Hfind Hkey Hty Hst.
  destruct (findById_In _ _ _ Hfind) as [_ Hid].
  set (r1 := with_fileKey (Some newKey1)
               (with_processingState (Some "toMp4") recording)).
  set (r2 := with_processingStartTime None
               (with_jobKey None
                  (with_fileKey (Some newKey2)
                     (with_processingState (Some "FINISHED")
                        (touch savedAt1 r1))))).
  assert (H1 : findById i (save savedAt1 r1 db) = Some (touch savedAt1 r1)).
  { replace i with (id r1) by exact Hid.
    apply (findById_save_same savedAt1 recording r1). simpl. now rewrite Hid. }
  assert (H2 : findById i (save savedAt2 r2 (save savedAt1 r1 db))
               = Some (touch savedAt2 r2)).
  { replace i with (id r2) by exact Hid.
    apply (findById_save_same savedAt2 (touch savedAt1 r1) r2).
    simpl. now rewrite Hid. }
  exists (save savedAt1 r1 db), (touch savedAt1 r1),
    (save savedAt2 r2 (save savedAt1 r1 db)), (touch savedAt2 r2).
  split.
  { unfold report. rewrite Hfind, Hkey, Hty, Hst. simpl.
    rewrite String.eqb_refl. reflexivity. }
  split; [exact H1|]. split; [reflexivity|]. split; [reflexivity|].
  split; [exact Hkey|].
  split; [reflexivity|]. split.
  { unfold report. rewrite H1. simpl. rewrite Hkey, Hty. simpl.
    rewrite String.eqb_refl. reflexivity. }
  split; [exact H2|]. repeat split.
Qed.

(** X7. The request is looked up in the table only when it is valid: there is
    no error message exactly when the id is a number, the job key and the
    success flag are given and the result, if given, parses; otherwise the
    answer is 400 with the messages and the table is as before. *)
Theorem putFileProcessing_validates
    (savedAt : Z) (body : PutBody) (db : Recordings) :
  (errorMessages body = []
   <-> body_id body <> None /\ body_jobKey body <> None
       /\ body_success body <> None /\ body_result body <> BadJson)
  /\ (errorMessages body <> [] ->
      putFileProcessing B savedAt body db
      = (Json 400 (errorMessages body), db)).
Proof.
  split.
  - unfold errorMessages.
    destruct (body_id body), (body_jobKey body), (body_success body),
      (body_result body); simpl; split;
      try discriminate; try (intros (H1 & H2 & H3 & H4); congruence);
      intros _; repeat split; discriminate.
  - intro H. unfold putFileProcessing.
    destruct (errorMessages body); [contradiction | reflexivity].
Qed.

End ReportFrame.

(** Field updates that are refused: with the backend of the examples, which
    refuses updates of [location], the report ends in an exception and the
    recording stays claimed. *)
Lemma report_refused_updates_unhandled :
  exists e,
    report exampleBackend 200 1 "T" true
      (Some (JObj [("fieldUpdates", JObj [("location", JStr "nowhere")])]))
      (Some true) (Some "f2") [audioClaimed 1 (Some 10)]
    = (Unhandled e, [audioClaimed 1 (Some 10)]).
Proof. eexists. reflexivity. Qed.

(** Witness of [report_two_steps_thermalRaw]. *)
Lemma report_two_steps_thermalRaw_witness :
  exists db2 r2,
    report exampleBackend 201 1 "T" true None (Some true) (Some "mp4")
      (snd (report exampleBackend 200 1 "T" true None (Some false)
              (Some "meta")
              [mkRecording 1 (Some "thermalRaw") None None None None
                 (Some 99) (Some "getMetadata") (Some "T") []]))
    = (Json 200 ["Processing finished."], db2)
    /\ findById 1 db2 = Some r2
    /\ processingState r2 = Some "FINISHED"
    /\ jobKey r2 = None.
Proof.
  destruct (report_two_steps_thermalRaw exampleBackend 200 201 1 "T" "meta"
              "mp4"
              [mkRecording 1 (Some "thermalRaw") None None None None
                 (Some 99) (Some "getMetadata") (Some "T") []]
              _ eq_refl eq_refl eq_refl eq_refl)
    as (db1 & r1 & db2 & r2 & E1 & _ & _ & _ & _ & _ & E2 & F2 & S2 & _ & J2
        & _).
  exists db2, r2. rewrite E1. simpl. auto.
Defined.

(** Witness of [putFileProcessing_validates]: a request without job key. *)
Lemma putFileProcessing_validates_witness :
  putFileProcessing exampleBackend 200
    (mkPutBody (Some 1) None (Some true) NoResult None None)
    [audioClaimed 1 (Some 10)]
  = (Json 400 ["'jobKey' field is required."], [audioClaimed 1 (Some 10)]).
Proof.
  apply (proj2 (putFileProcessing_validates exampleBackend 200
                  (mkPutBody (Some 1) None (Some true) NoResult None None)
                  [audioClaimed 1 (Some 10)])).
  simpl. discriminate.
Defined.

(* ------------------------------------------------------------------ *)
(** ** The pipelines *)

(** In a list of jobs without repetition, the next job of the job at
    position [k] is the one at position [k + 1], and there is none after
    the last. *)
Lemma nextJob_position (jobs : list string) (k : nat) (s : string) :
  NoDup jobs -> nth_error jobs k = Some s ->
  nextJob jobs (Some s) = nth_error jobs (S k).
Proof.
  intros Hnd Hk.
  destruct (nth_error_split jobs k Hk) as (l1 & l2 & -> & Hlen).
  apply NoDup_remove_2 in Hnd.
  assert (Hnot : ~ In s l1) by (intro H; apply Hnd, in_or_app; now left).
  unfold nextJob. rewrite indexOf_app by assumption.
  replace (Z.of_nat (List.length l1) + 1) with (Z.of_nat (S k)) by lia.
  apply at_index_nat.
Qed.

(** X8. The configured pipelines: in the list of jobs of a recording type each
    job is followed by the job at the next position, and the last one
    (FINISHED) by nothing. *)
Theorem nextJob_follows_pipeline
    (ty : option string) (jobs : list string) (k : nat) (s : string) :
  processingStates ty = Some jobs ->
  nth_error jobs k = Some s ->
  nextJob jobs (Some s) = nth_error jobs (S k)
  /\ last jobs "" = "FINISHED".
Proof.
  intros Hjobs Hk.
  assert (Hnd : NoDup jobs /\ last jobs "" = "FINISHED").
  { unfold processingStates in Hjobs. destruct ty as [t|]; [|discriminate].
    destruct (String.eqb t "thermalRaw").
    - injection Hjobs as <-. split; [|reflexivity].
      repeat constructor; simpl; intuition discriminate.
    - destruct (String.eqb t "audio"); [|discriminate].
      injection Hjobs as <-. split; [|reflexivity].
      repeat constructor; simpl; intuition discriminate. }
  destruct Hnd as [Hnd Hlast]. split; [|exact Hlast].
  now apply nextJob_position.
Qed.

(** Witness of [nextJob_follows_pipeline]. *)
Lemma nextJob_follows_pipeline_witness :
  nextJob ["getMetadata"; "toMp4"; "FINISHED"] (Some "toMp4")
  = Some "FINISHED"
  /\ last ["getMetadata"; "toMp4"; "FINISHED"] "" = "FINISHED".
Proof.
  apply (nextJob_follows_pipeline (Some "thermalRaw")
           ["getMetadata"; "toMp4"; "FINISHED"] 1 "toMp4"); reflexivity.
Defined.

(** Witness of [nextJob_absent]: a null state starts the audio pipeline. *)
Lemma nextJob_absent_witness :
  nextJob ["toMp3"; "FINISHED"] None = Some "toMp3".
Proof.
  apply (nextJob_absent None ["toMp3"; "FINISHED"]).
  intros j _. discriminate.
Defined.

(* ------------------------------------------------------------------ *)
(** ** More on tag modes *)

Section MoreTagModes.

Import QueryBuilder.

Lemma existsb_filter {A : Type} (f g : A -> bool) (l : list A) :
  existsb f (filter g l) = existsb (fun x => g x && f x) l.
Proof.
  induction l as [|x l IH]; [reflexivity|].
  simpl. destruct (g x); simpl; now rewrite IH.
Qed.

Lemma existsb_map {A C : Type} (f : C -> bool) (h : A -> C) (l : list A) :
  existsb f (map h l) = existsb (fun x => f (h x)) l.
Proof.
  induction l as [|x l IH]; [reflexivity|]. simpl. now rewrite IH.
Qed.

Lemma existsb_ext_in {A : Type} (f g : A -> bool) (l : list A) :
  (forall x, In x l -> f x = g x) -> existsb f l = existsb g l.
Proof.
  induction l as [|x l IH]; intro H; [reflexivity|].
  simpl. rewrite (H x) by now left.
  rewrite IH; [reflexivity|]. intros y Hy. apply H. now right.
Qed.

Lemma opt_Z_eqb_eq (a : option Z) (x : Z) :
  opt_Z_eqb a x = true <-> a = Some x.
Proof.
  destruct a as [y|]; simpl; [|split; discriminate].
  rewrite Z.eqb_eq. split; congruence.
Qed.

(** X10. The modes the validator accepts are the modes the builder handles:
    with no mode, or the empty one, the builder
    never throws and takes "tagged" when tag names are given and "any"
    otherwise; with a mode, it throws exactly when the mode is not one of
    [validTagModes]. *)
Theorem handleTagMode_throws_iff_invalid
    (mode : string) (names : option (list string)) :
  handleTagMode None names
    = handleTagMode (Some (match names with
                           | Some (_ :: _) => "tagged"
                           | _ => "any"
                           end)) names
  /\ handleTagMode (Some "") names = handleTagMode None names
  /\ (mode <> "" ->
      (isValidTagMode mode = true
       <-> exists p, handleTagMode (Some mode) names = Returned p)).
Proof.
  split; [|split].
  - destruct names as [[|n ns]|]; reflexivity.
  - reflexivity.
  - intro Hne.
    assert (He : String.eqb mode "" = false)
      by (apply String.eqb_neq; exact Hne).
    unfold isValidTagMode, mem_string, validTagModes, handleTagMode.
    rewrite He. cbn [existsb].
    repeat match goal with
           | |- context [String.eqb mode ?s] =>
               let E := fresh "E" in
               destruct (String.eqb mode s) eqn:E;
               [ apply String.eqb_eq in E; subst mode;
                 split; intros _; [eexists|]; reflexivity | ]
           end.
    simpl. split; [discriminate|]. intros [p Hp]. discriminate Hp.
Qed.

(** X11. The relations between the tag modes, for any list of names that
    hold no quote: the modes "both-tagged" and "automatic+human" build the
    same condition;
    "no-human" is the negation of "human-tagged"; "automatic-only" is
    "automatic-tagged" without "human-tagged" and "human-only" is
    "human-tagged" without "automatic-tagged", so the two never hold
    together; and a recording is "human-tagged" exactly when it is
    "both-tagged" or "human-only". *)
Theorem tag_modes_relations
    (db : Database) (rid : Z) (names : option (list string)) :
  plainNames names = true ->
  let holds_ m := matchesTagMode db rid (Some m) names in
  handleTagMode (Some "both-tagged") names
    = handleTagMode (Some "automatic+human") names
  /\ holds_ "no-human" = option_map negb (holds_ "human-tagged")
  /\ (exists h a,
        holds_ "human-tagged" = Some h
        /\ holds_ "automatic-tagged" = Some a
        /\ holds_ "both-tagged" = Some (h && a)
        /\ holds_ "automatic-only" = Some (a && negb h)
        /\ holds_ "human-only" = Some (h && negb a)
        /\ h = (h && a) || (h && negb a)
        /\ (a && negb h) && (h && negb a) = false).
Proof.
  intros Hplain.
  set (tw := match names with Some (t :: ts) => Some (t :: ts) | _ => None end).
  assert (Hneg : forall ty,
             evalPred db rid (notTagOfType tw ty)
             = negb (evalPred db rid (tagOfType tw ty))).
  { intro ty. simpl. now rewrite negb_orb. }
  cbv zeta. split; [reflexivity|].
  unfold matchesTagMode. rewrite Hplain.
  unfold handleTagMode. fold tw. cbn [String.eqb Ascii.eqb Bool.eqb].
  split.
  - cbn [option_map]. now rewrite Hneg.
  - exists (evalPred db rid (tagOfType tw (Some humanSQL))),
           (evalPred db rid (tagOfType tw (Some AISQL))).
    cbn [evalPred]. fold (evalPred db rid (tagOfType tw (Some humanSQL))).
    repeat split.
    + change (evalPred db rid (notTagOfType tw (Some humanSQL)))
        with (negb (evalPred db rid (Exists (recordingTaggedWith tw (Some humanSQL))))
              && negb (evalPred db rid (Exists (trackTaggedWith tw (Some humanSQL))))).
      simpl. now rewrite negb_orb.
    + simpl. now rewrite negb_orb.
    + now destruct (evalPred db rid (tagOfType tw (Some humanSQL))),
        (evalPred db rid (tagOfType tw (Some AISQL))).
    + now destruct (evalPred db rid (tagOfType tw (Some humanSQL))),
        (evalPred db rid (tagOfType tw (Some AISQL))).
Qed.

End MoreTagModes.

(** Witness of [tag_modes_relations]: a recording with a human tag possum
    is "human-tagged" and not "no-human" when asked for possum. *)
Lemma tag_modes_relations_witness :
  matchesTagMode
    (mkDatabase [] [mkTag (Some 1) (Some "possum") None (Some false) []] [] [])
    1 (Some "no-human") (Some ["possum"]) = Some false
  /\ matchesTagMode
       (mkDatabase [] [mkTag (Some 1) (Some "possum") None (Some false) []]
          [] [])
       1 (Some "human-tagged") (Some ["possum"]) = Some true.
Proof.
  destruct (tag_modes_relations
              (mkDatabase []
                 [mkTag (Some 1) (Some "possum") None (Some false) []] [] [])
              1 (Some ["possum"]) eq_refl) as (_ & Hneg & _).
  split; [rewrite Hneg|]; reflexivity.
Defined.

(** Witness of [handleTagMode_throws_iff_invalid]: the mode "cool" is
    valid and handled. *)
Lemma handleTagMode_throws_iff_invalid_witness :
  QueryBuilder.isValidTagMode "cool" = true
  <-> exists p,
        QueryBuilder.handleTagMode (Some "cool") None = QueryBuilder.Returned p.
Proof.
  apply (proj2 (proj2 (handleTagMode_throws_iff_invalid "cool" None))).
  discriminate.
Defined.

Section TagsAndTracks.

Import QueryBuilder.

(** X12. Tags on archived tracks never count: every condition gives the same
    answer on the database and on the database without its archived
    tracks. *)
Theorem archived_tracks_do_not_count (db : Database) (rid : Z) (p : pred) :
  evalPred db rid p = evalPred (withoutArchivedTracks db) rid p.
Proof.
  induction p as [|q|p IH|a IHa b IHb|a IHa b IHb]; simpl.
  - reflexivity.
  - destruct q as [cs|cs]; simpl; [reflexivity|].
    rewrite existsb_filter. apply existsb_ext_in. intros tr _.
    destruct (is_null (archivedAt tr)); simpl;
      [reflexivity | now rewrite andb_false_r].
  - now rewrite IH.
  - now rewrite IHa, IHb.
  - now rewrite IHa, IHb.
Qed.

(** X13. A named mode is about recording-level tags: a recording passes "cool",
    "missed track", "multiple animals" or "trapped in trap" only if one of
    its own tags has the mode as its [what] or as its [detail]; tags on
    its tracks are not enough.  This for tag names that hold no quote. *)
Theorem named_mode_needs_recording_tag
    (db : Database) (rid : Z) (mode : string) (names : option (list string)) :
  plainNames names = true ->
  In mode ["cool"; "missed track"; "multiple animals"; "trapped in trap"] ->
  matchesTagMode db rid (Some mode) names = Some true ->
  exists t, In t (Tags db)
            /\ tag_RecordingId t = Some rid
            /\ (tag_what t = Some mode \/ tag_detail t = Some mode).
Proof.
  intros Hplain Hmode Hm.
  assert (Hex : evalPred db rid (Exists (recordingTaggedWith (Some [mode]) None))
                = true).
  { unfold matchesTagMode in Hm. rewrite Hplain in Hm.
    simpl in Hmode.
    destruct Hmode as [<-|[<-|[<-|[<-|[]]]]];
      cbn [handleTagMode String.eqb Ascii.eqb Bool.eqb orb] in Hm;
      destruct (is_null match names with Some (t :: ts) => Some (t :: ts)
                                    | _ => None end);
      injection Hm as Hm; try exact Hm;
      cbn [evalPred] in Hm; apply andb_true_iff in Hm; exact (proj1 Hm). }
  assert (Hni : String.eqb mode "interesting" = false).
  { simpl in Hmode. destruct Hmode as [<-|[<-|[<-|[<-|[]]]]]; reflexivity. }
  simpl in Hex. unfold appended, selectByTagWhat in Hex. simpl in Hex.
  unfold partsFor in Hex. rewrite Hni in Hex. simpl in Hex.
  apply existsb_exists in Hex. destruct Hex as (t & Hin & Ht).
  apply andb_true_iff in Ht. destruct Ht as [Hr Hc].
  exists t. split; [exact Hin|]. split; [now apply opt_Z_eqb_eq|].
  unfold allHold in Hc. simpl in Hc. unfold column in Hc. simpl in Hc.
  destruct (tag_what t) as [w|], (tag_detail t) as [d|]; simpl in Hc.
  - destruct (String.eqb w mode) eqn:Ew;
      [apply String.eqb_eq in Ew; subst; now left|].
    destruct (String.eqb d mode) eqn:Ed;
      [apply String.eqb_eq in Ed; subst; now right | discriminate Hc].
  - destruct (String.eqb w mode) eqn:Ew;
      [apply String.eqb_eq in Ew; subst; now left | discriminate Hc].
  - destruct (String.eqb d mode) eqn:Ed;
      [apply String.eqb_eq in Ed; subst; now right | discriminate Hc].
  - discriminate Hc.
Qed.

(** X14. A tag that is not automatic, put on the recording itself, takes the
    recording out of the mode "automatic-only" (with no tag names). *)
Theorem human_tag_ends_automatic_only
    (db : Database) (rid : Z) (t : Tag) :
  tag_RecordingId t = Some rid ->
  tag_automatic t = Some false ->
  matchesTagMode
    (mkDatabase (RecordingsTable db) (t :: Tags db) (Tracks db) (TrackTags db))
    rid (Some "automatic-only") None
  = Some false.
Proof.
  intros Hr Ha.
  assert (H : allHold (appended None true (Some humanSQL)) (tagRow t) = true).
  { unfold allHold, tagRow. simpl. rewrite Ha. reflexivity. }
  unfold matchesTagMode. simpl.
  rewrite Hr, H. simpl. rewrite Z.eqb_refl. simpl.
  now rewrite andb_false_r.
Qed.

(** X15. A tag added through the processing API is automatic: after a
    successful POST of a track tag on a track that is not archived, the
    recording passes "automatic-tagged", and for no recording and no list
    of names that hold no quote does the answer of "human-tagged"
    change. *)
Theorem postTrackTag_is_automatic
    (i trackId : Z) (what_ : option string) (db : Database)
    (recording : Recording) (track : Track) :
  findById i (RecordingsTable db) = Some recording ->
  getTrack recording trackId db = Some track ->
  archivedAt track = None ->
  exists db',
    postTrackTag i trackId what_ db = (Json 200 ["Track tag added."], db')
    /\ matchesTagMode db' (id recording) (Some "automatic-tagged") None
       = Some true
    /\ forall rid names,
         plainNames names = true ->
         matchesTagMode db' rid (Some "human-tagged") names
         = matchesTagMode db rid (Some "human-tagged") names.
Proof.
  intros Hfind Htrack Harch.
  unfold postTrackTag. rewrite Hfind, Htrack. eexists.
  split; [reflexivity|].
  unfold getTrack in Htrack.
  destruct (find (fun tr => Z.eqb (track_id tr) trackId) (Tracks db))
    as [tr|] eqn:Ef; [|discriminate].
  destruct (opt_Z_eqb (track_RecordingId tr) (id recording)) eqn:Er;
    [|discriminate].
  injection Htrack as ->. apply find_some in Ef. destruct Ef as [Hin _].
  split.
  - unfold matchesTagMode. simpl. f_equal. apply orb_true_iff. right.
    apply existsb_exists. exists track. split; [exact Hin|].
    rewrite Er, Harch. simpl.
    rewrite existsb_app. apply orb_true_iff. right. simpl.
    now rewrite Z.eqb_refl.
  - intros rid names Hplain. unfold matchesTagMode. rewrite Hplain.
    simpl. f_equal. f_equal.
    apply existsb_ext_in. intros x _. f_equal.
    rewrite existsb_app. simpl. rewrite orb_false_r.
    assert (Hfalse : allHold
                       (appended
                          match names with
                          | Some (t :: ts) => Some (t :: ts)
                          | _ => None
                          end false (Some humanSQL))
                       (trackTagRow (mkTrackTag (Some (track_id track)) what_
                                       (Some true))) = false).
    { unfold allHold, appended.
      rewrite map_app, fold_left_app. simpl.
      now destruct (fold_left and3 _ (Some true)) as [[|]|]. }
    rewrite Hfalse. now rewrite andb_false_r, orb_false_r.
Qed.

(** X16. After DELETE /api/fileProcessing/:id/tracks no condition on track tags
    holds for the recording, while for another recording, and for
    conditions on recording-level tags, nothing changes. *)
Theorem deleteTracks_clears_track_tags
    (i : Z) (db : Database) (recording : Recording) :
  findById i (RecordingsTable db) = Some recording ->
  exists db',
    deleteTracks i db = (Json 200 ["Tracks cleared."], db')
    /\ (forall cs,
          evalPred db' (id recording) (Exists (FromTrackTags cs)) = false)
    /\ (forall cs rid,
          evalPred db' rid (Exists (FromTags cs))
          = evalPred db rid (Exists (FromTags cs)))
    /\ (forall rid p, rid <> id recording ->
          evalPred db' rid p = evalPred db rid p).
Proof.
  intro Hfind. unfold deleteTracks. rewrite Hfind. eexists.
  split; [reflexivity|].
  assert (Htracks : forall cs rid,
             rid <> id recording ->
             nonEmpty
               (mkDatabase (RecordingsTable db) (Tags db)
                  (filter (fun tr => negb (opt_Z_eqb (track_RecordingId tr)
                                             (id recording)))
                          (Tracks db))
                  (TrackTags db)) rid (FromTrackTags cs)
             = nonEmpty db rid (FromTrackTags cs)).
  { intros cs rid Hrid. simpl. rewrite existsb_filter.
    apply existsb_ext_in. intros tr _.
    destruct (opt_Z_eqb (track_RecordingId tr) (id recording)) eqn:E1;
      simpl; [|reflexivity].
    destruct (opt_Z_eqb (track_RecordingId tr) rid) eqn:E2; [|reflexivity].
    apply opt_Z_eqb_eq in E1, E2. congruence. }
  split; [|split].
  - intro cs. simpl. rewrite existsb_filter.
    apply not_true_iff_false. intro H. apply existsb_exists in H.
    destruct H as (tr & _ & H).
    destruct (opt_Z_eqb (track_RecordingId tr) (id recording));
      simpl in H; discriminate H.
  - reflexivity.
  - intros rid p Hrid.
    induction p as [|q|p IH|a IHa b IHb|a IHa b IHb]; simpl.
    + reflexivity.
    + destruct q as [cs|cs]; [reflexivity | now apply Htracks].
    + now rewrite IH.
    + now rewrite IHa, IHb.
    + now rewrite IHa, IHb.
Qed.

End TagsAndTracks.

(** Witness of [named_mode_needs_recording_tag]: the label is in the
    [detail] of the tag. *)
Lemma named_mode_needs_recording_tag_witness :
  exists t,
    In t [mkTag (Some 1) None (Some "cool") (Some false) []]
    /\ tag_RecordingId t = Some 1
    /\ (tag_what t = Some "cool" \/ tag_detail t = Some "cool").
Proof.
  apply (named_mode_needs_recording_tag
           (mkDatabase [] [mkTag (Some 1) None (Some "cool") (Some false) []]
              [] [])
           1 "cool" None).
  - reflexivity.
  - simpl. now left.
  - reflexivity.
Defined.

(** Witness of [human_tag_ends_automatic_only]: a recording with one
    automatic tag passes "automatic-only", and no longer does with a human
    tag next to it. *)
Lemma human_tag_ends_automatic_only_witness :
  matchesTagMode
    (mkDatabase [] [mkTag (Some 1) (Some "possum") None (Some true) []] [] [])
    1 (Some "automatic-only") None = Some true
  /\ matchesTagMode
       (mkDatabase []
          [mkTag (Some 1) (Some "cat") None (Some false) [];
           mkTag (Some 1) (Some "possum") None (Some true) []] [] [])
       1 (Some "automatic-only") None = Some false.
Proof.
  split; [reflexivity|].
  apply (human_tag_ends_automatic_only
           (mkDatabase [] [mkTag (Some 1) (Some "possum") None (Some true) []]
              [] [])
           1 (mkTag (Some 1) (Some "cat") None (Some false) []));
    reflexivity.
Defined.

(** Witness of [postTrackTag_is_automatic]. *)
Lemma postTrackTag_is_automatic_witness :
  exists db',
    postTrackTag 1 7 (Some "possum")
      (mkDatabase [audioPending 1 None] [] [mkTrack 7 (Some 1) None] [])
    = (Json 200 ["Track tag added."], db')
    /\ matchesTagMode db' 1 (Some "automatic-tagged") None = Some true
    /\ matchesTagMode db' 1 (Some "human-tagged") None = Some false.
Proof.
  destruct (postTrackTag_is_automatic 1 7 (Some "possum")
              (mkDatabase [audioPending 1 None] [] [mkTrack 7 (Some 1) None] [])
              (audioPending 1 None) (mkTrack 7 (Some 1) None)
              eq_refl eq_refl eq_refl) as (db' & H1 & H2 & H3).
  exists db'. split; [exact H1|]. split; [exact H2|].
  rewrite H3; reflexivity.
Defined.

(** Witness of [deleteTracks_clears_track_tags]. *)
Lemma deleteTracks_clears_track_tags_witness :
  exists db',
    deleteTracks 1
      (mkDatabase [audioPending 1 None] [] [mkTrack 7 (Some 1) None]
         [mkTrackTag (Some 7) (Some "possum") (Some true)])
    = (Json 200 ["Tracks cleared."], db')
    /\ matchesTagMode db' 1 (Some "untagged") None = Some true.
Proof.
  destruct (deleteTracks_clears_track_tags 1
              (mkDatabase [audioPending 1 None] [] [mkTrack 7 (Some 1) None]
                 [mkTrackTag (Some 7) (Some "possum") (Some true)])
              (audioPending 1 None) eq_refl) as (db' & H1 & H2 & H3 & _).
  exists db'. split; [exact H1|].
  injection H1 as <-. reflexivity.
Defined.

(* ------------------------------------------------------------------ *)
(** ** Reprocessing *)

Section Reprocess.

Import QueryBuilder.

Lemma reprocess_tables (now savedAt1 savedAt2 : Z) (attributes : list string)
    (this : Recording) (db : Database) :
  Tags (snd (reprocess now savedAt1 savedAt2 attributes this db))
  = filter (fun t => negb (opt_Z_eqb (tag_RecordingId t) (id this))) (Tags db)
  /\ Tracks (snd (reprocess now savedAt1 savedAt2 attributes this db))
     = map (fun tr =>
              if opt_Z_eqb (track_RecordingId tr) (id this)
                 && is_null (archivedAt tr)
              then mkTrack (track_id tr) (track_RecordingId tr) (Some now)
              else tr) (Tracks db)
  /\ TrackTags (snd (reprocess now savedAt1 savedAt2 attributes this db))
     = TrackTags db.
Proof.
  unfold reprocess.
  destruct (processingStates _); simpl; repeat split.
Qed.

(** X17. Whatever its outcome, [reprocess] leaves the recording untagged: no
    condition on its tags or on the tags of its tracks holds any more, for
    any list of names that hold no quote and any kind of tag, while every
    condition on another recording is answered as before. *)
Theorem reprocess_leaves_untagged
    (now savedAt1 savedAt2 : Z) (attributes : list string)
    (this : Recording) (db : Database) :
  (forall tagWhats tagTypeSql,
      plainNames tagWhats = true ->
      evalPred (snd (reprocess now savedAt1 savedAt2 attributes this db))
        (id this) (notTagOfType tagWhats tagTypeSql) = true)
  /\ (forall rid p, rid <> id this ->
        evalPred (snd (reprocess now savedAt1 savedAt2 attributes this db))
          rid p
        = evalPred db rid p).
Proof.
  destruct (reprocess_tables now savedAt1 savedAt2 attributes this db)
    as (Htags & Htracks & Htt).
  split.
  - intros tw ty _. simpl. rewrite Htags, Htracks, Htt.
    apply andb_true_iff. split; apply negb_true_iff, not_true_iff_false;
      intro H.
    + rewrite existsb_filter in H. apply existsb_exists in H.
      destruct H as (t & _ & H).
      destruct (opt_Z_eqb (tag_RecordingId t) (id this)); simpl in H;
        discriminate H.
    + rewrite existsb_map in H. apply existsb_exists in H.
      destruct H as (tr & _ & H).
      destruct (opt_Z_eqb (track_RecordingId tr) (id this)) eqn:E1,
        (is_null (archivedAt tr)) eqn:E2; simpl in H;
        rewrite ?E1, ?E2 in H; simpl in H; discriminate H.
  - intros rid p Hrid.
    induction p as [|q|p IH|a IHa b IHb|a IHa b IHb]; simpl.
    + reflexivity.
    + destruct q as [cs|cs]; simpl.
      * rewrite Htags, existsb_filter. apply existsb_ext_in. intros t _.
        destruct (opt_Z_eqb (tag_RecordingId t) (id this)) eqn:E1;
          simpl; [|reflexivity].
        destruct (opt_Z_eqb (tag_RecordingId t) rid) eqn:E2; [|reflexivity].
        apply opt_Z_eqb_eq in E1, E2. congruence.
      * rewrite Htracks, Htt, existsb_map. apply existsb_ext_in.
        intros tr _.
        destruct (opt_Z_eqb (track_RecordingId tr) (id this)) eqn:E1;
          simpl; [|reflexivity].
        assert (E2 : opt_Z_eqb (track_RecordingId tr) rid = false).
        { destruct (opt_Z_eqb (track_RecordingId tr) rid) eqn:E2;
            [|reflexivity].
          apply opt_Z_eqb_eq in E1, E2. congruence. }
        destruct (is_null (archivedAt tr)); simpl; now rewrite E2.
    + now rewrite IH.
    + now rewrite IHa, IHb.
    + now rewrite IHa, IHb.
Qed.



End Reprocess.

(** Witness of [reprocess_leaves_untagged]: a recording with a tag and an
    active track is untagged after reprocessing, and the tag of another
    recording still counts. *)
Lemma reprocess_leaves_untagged_witness :
  QueryBuilder.evalPred
    (snd (reprocess 500 501 502 attributeNames (audioClaimed 1 None)
            (mkDatabase [audioClaimed 1 None]
               [mkTag (Some 1) (Some "cat") None (Some false) [];
                mkTag (Some 2) (Some "cat") None (Some false) []]
               [mkTrack 7 (Some 1) None]
               [mkTrackTag (Some 7) (Some "possum") (Some true)])))
    2 (QueryBuilder.tagOfType None None)
  = QueryBuilder.evalPred
      (mkDatabase [audioClaimed 1 None]
         [mkTag (Some 1) (Some "cat") None (Some false) [];
          mkTag (Some 2) (Some "cat") None (Some false) []]
         [mkTrack 7 (Some 1) None]
         [mkTrackTag (Some 7) (Some "possum") (Some true)])
      2 (QueryBuilder.tagOfType None None).
Proof.
  apply (proj2 (reprocess_leaves_untagged 500 501 502 attributeNames
                  (audioClaimed 1 None) _)).
  simpl. discriminate.
Defined.

(** An instance loaded as [Recording.get] loads it, without [jobKey] and
    the attributes of the group and the device: reprocessing it leaves the
    [jobKey] and the [DeviceId] of the row as they are, and the tag it had
    is kept whole under [oldTags]. *)
Lemma reprocess_partial_instance :
  let row :=
    with_others [("DeviceId", JNum 3); ("updatedAt", JNum 50)]
      (audioClaimed 1 (Some 10)) in
  let this := mkRecording 1 (Some "audio") (Some 10) None None (Some "f1")
                None (Some "toMp3") None [] in
  exists r row',
    reprocess 500 501 502 userGetAttributes this
      (mkDatabase [row]
         [mkTag (Some 1) (Some "cat") None (Some false) [("id", JNum 8)]]
         [] [])
    = (Fulfilled r, mkDatabase [row'] [] [] [])
    /\ jobKey row' = Some "T"
    /\ processingStartTime row' = None
    /\ processingState row' = Some "toMp3"
    /\ DeviceId row' = Some 3
    /\ additionalMetadata row'
       = Some [("oldTags",
                JArr [JObj [("RecordingId", JNum 1); ("what", JStr "cat");
                            ("detail", JNull); ("automatic", JBool false);
                            ("id", JNum 8)]])]
    /\ obj_get "updatedAt" (others row') = Some (JNum 502).
Proof.
  cbv zeta. eexists. eexists. split; [reflexivity|].
  repeat split.
Qed.

(* ------------------------------------------------------------------ *)
(** ** Merging metadata and field updates *)

Lemma obj_get_app (k : string) (a b : Obj) :
  obj_get k (a ++ b)%list
  = match obj_get k a with
    | Some v => Some v
    | None => obj_get k b
    end.
Proof.
  induction a as [|[k' v'] a IH]; simpl; [reflexivity|].
  destruct (String.eqb k k'); [reflexivity | exact IH].
Qed.

Lemma merged_lookup (k : string) (u meta : Obj) :
  obj_get k (fold_left (fun m kv => obj_set (fst kv) (snd kv) m) u meta)
  = obj_get k (rev u ++ meta)%list.
Proof.
  revert meta. induction u as [|[k1 v1] u IH]; intro meta; [reflexivity|].
  simpl. rewrite IH. rewrite !obj_get_app.
  destruct (obj_get k (rev u)) as [v|]; [reflexivity|].
  simpl. destruct (String.eqb k k1) eqn:E.
  - apply String.eqb_eq in E. subst k1. apply obj_get_set_same.
  - now apply obj_get_set_other.
Qed.

(** X19. Merging an object into [additionalMetadata] is a key-wise overwrite:
    afterwards a key has the value the update gives it (the last one, if
    the update names it twice), and a key the update does not name has the
    value it had; nothing else of the recording changes. *)
Theorem mergeAdditionalMetadata_lookup
    (r : Recording) (u : Obj) (k : string) :
  exists merged,
    mergeAdditionalMetadata (JObj u) r = with_additionalMetadata (Some merged) r
    /\ obj_get k merged
       = match obj_get k (rev u) with
         | Some v => Some v
         | None => match additionalMetadata r with
                   | Some m => obj_get k m
                   | None => None
                   end
         end.
Proof.
  unfold mergeAdditionalMetadata. simpl forIn. eexists.
  split; [reflexivity|].
  rewrite merged_lookup, obj_get_app.
  destruct (obj_get k (rev u)); [reflexivity|].
  now destruct (additionalMetadata r).
Qed.

(* ------------------------------------------------------------------ *)
(** ** Permissions, get, update and delete *)

Lemma mem_string_In (s : string) (l : list string) :
  mem_string s l = true <-> In s l.
Proof.
  unfold mem_string. rewrite existsb_exists. split.
  - intros (x & Hx & E). apply String.eqb_eq in E. now subst.
  - intro H. exists s. split; [exact H | apply String.eqb_refl].
Qed.

Lemma filterData_keeps (options : FilterOptions) (r r' : Recording) :
  filterData options r = Some r' ->
  exists loc, r' = with_location loc r.
Proof.
  unfold filterData. destruct (location r) as [loc|] eqn:E.
  - destruct (reduceLatLonPrecision _ _) as [latLon|]; [|discriminate].
    intro H. injection H as <-. eauto.
  - intro H. injection H as <-. exists None.
    destruct r; simpl in *. now subst.
Qed.

(** X20. The permissions a user has on a recording are none, view alone, or all
    four: every one is a valid permission, update, delete and tag come
    together and bring view, and view is given exactly to a user with a
    global flag, in the group of the recording or with access to its
    device. *)
Theorem getUserPermissions_shape (p : Principal) (this : Recording) :
  let perms := getUserPermissions p this in
  (forall perm, In perm perms -> Perms.isValid perm = true)
  /\ (In Perms.UPDATE perms <-> In Perms.DELETE perms)
  /\ (In Perms.UPDATE perms <-> In Perms.TAG perms)
  /\ (In Perms.UPDATE perms -> In Perms.VIEW perms)
  /\ (In Perms.UPDATE perms
      <-> hasGlobalWrite (asUser p) = true
          \/ isInGroup p (GroupId this) = true
          \/ canAccessDevice p (DeviceId this) = true)
  /\ (In Perms.VIEW perms
      <-> In Perms.UPDATE perms \/ hasGlobalRead (asUser p) = true).
Proof.
  cbv zeta. unfold getUserPermissions.
  destruct (hasGlobalWrite (asUser p)), (isInGroup p (GroupId this)),
    (canAccessDevice p (DeviceId this)), (hasGlobalRead (asUser p));
    simpl; unfold Perms.DELETE, Perms.TAG, Perms.VIEW, Perms.UPDATE;
    (split; [intros perm Hp; simpl in Hp;
             repeat (destruct Hp as [<-|Hp]; [reflexivity|]); destruct Hp|]);
    repeat split; intros; try tauto;
      repeat match goal with
             | H : _ \/ _ |- _ => destruct H
             | H : False |- _ => destruct H
             | H : _ = _ |- _ => discriminate H
             end; auto 6.
Qed.

Section Access.

Variable p : Principal.

Lemma get_finds (i : Z) (db : Recordings) (row : Recording) :
  NoDup (map id db) -> In row db -> id row = i -> DeviceId row <> None ->
  find (fun r => Z.eqb (id r) i && negb (is_null (DeviceId r)) && true) db
  = Some row.
Proof.
  intros Hnd Hin Hid Hdev.
  destruct (find _ db) as [x|] eqn:E.
  - apply find_some in E. destruct E as [Hx Hpx].
    rewrite !andb_true_iff in Hpx. destruct Hpx as [[Hpx _] _].
    apply Z.eqb_eq in Hpx. f_equal.
    apply (unique_by_id db); auto. congruence.
  - exfalso. apply (find_none _ _ E) in Hin.
    rewrite Hid, Z.eqb_refl in Hin. destruct (DeviceId row); [|congruence].
    discriminate Hin.
Qed.

(** X21. A public recording is listed by the queries of every user, but
    [Recording.get] refuses it to a user who has no global flag, is not in
    its group and has no access to its device. *)
Theorem public_recording_listed_but_refused
    (db : Recordings) (row : Recording) (filterOptions : FilterOptions) :
  hasGlobalRead (asUser p) = false ->
  hasGlobalWrite (asUser p) = false ->
  isInGroup p (GroupId row) = false ->
  canAccessDevice p (DeviceId row) = false ->
  isPublic row = true ->
  NoDup (map id db) -> In row db -> DeviceId row <> None ->
  passes (recordingsFor p) row = true
  /\ get p (id row) Perms.VIEW None filterOptions db
     = QueryBuilder.Thrown authorizationError.
Proof.
  intros Hr Hw Hg Hd Hpub Hnd Hin Hdev. split.
  - unfold recordingsFor, passes. now rewrite Hr, Hpub.
  - unfold get. simpl.
    rewrite (get_finds (id row) db row Hnd Hin eq_refl Hdev).
    unfold getUserPermissions. rewrite Hw, Hg, Hd, Hr. reflexivity.
Qed.

Lemma get_returned_row
    (i : Z) (permission : string) (ty : option string)
    (filterOptions : FilterOptions) (db : Recordings)
    (recording : Recording) :
  get p i permission ty filterOptions db
    = QueryBuilder.Returned (Some recording) ->
  exists row,
    In row db /\ id row = i /\ id recording = i
    /\ In permission (getUserPermissions p row).
Proof.
  unfold get. intro H.
  destruct (Perms.isValid permission); simpl in H; [|discriminate].
  destruct (find _ db) as [row|] eqn:Ef; [|discriminate].
  apply find_some in Ef. destruct Ef as [Hin Hrow].
  rewrite !andb_true_iff in Hrow. destruct Hrow as [[Hid _] _].
  apply Z.eqb_eq in Hid.
  destruct (mem_string permission (getUserPermissions p row)) eqn:Hm;
    simpl in H; [|discriminate].
  destruct (filterData _ _) as [r|] eqn:Hf; [|discriminate].
  injection H as <-.
  apply filterData_keeps in Hf. destruct Hf as [loc ->].
  exists row. simpl. repeat split; auto.
  now apply mem_string_In.
Qed.

(** X22. What [Recording.get] returns when it returns a recording: the row with
    the id asked for, on which the user has the (valid) permission asked
    for; the instance carries the type, state and file key of the row but
    neither its job key nor its processing start time. *)
Theorem get_returns_permitted
    (i : Z) (permission : string) (ty : option string)
    (filterOptions : FilterOptions) (db : Recordings)
    (recording : Recording) :
  get p i permission ty filterOptions db
    = QueryBuilder.Returned (Some recording) ->
  exists row,
    In row db /\ id row = i /\ id recording = i
    /\ Perms.isValid permission = true
    /\ In permission (getUserPermissions p row)
    /\ type recording = type row
    /\ processingState recording = processingState row
    /\ fileKey recording = fileKey row
    /\ jobKey recording = None
    /\ processingStartTime recording = None.
Proof.
  unfold get. intro H.
  destruct (Perms.isValid permission) eqn:Hv; simpl in H; [|discriminate].
  destruct (find _ db) as [row|] eqn:Ef; [|discriminate].
  apply find_some in Ef. destruct Ef as [Hin Hrow].
  rewrite !andb_true_iff in Hrow. destruct Hrow as [[Hid _] _].
  apply Z.eqb_eq in Hid.
  destruct (mem_string permission (getUserPermissions p row)) eqn:Hm;
    simpl in H; [|discriminate].
  destruct (filterData _ _) as [r|] eqn:Hf; [|discriminate].
  injection H as <-.
  apply filterData_keeps in Hf. destruct Hf as [loc ->].
  exists row. simpl. repeat split; auto.
  now apply mem_string_In.
Qed.

Variable B : Backend.
Variable isLatLon : option Point -> bool.




Lemma findById_filter_other (i j : Z) (db : Recordings) :
  j <> i ->
  findById j (filter (fun x => negb (Z.eqb (id x) i)) db) = findById j db.
Proof.
  intro Hj. unfold findById. induction db as [|x db IH]; [reflexivity|].
  simpl. destruct (Z.eqb (id x) i) eqn:E; simpl.
  - apply Z.eqb_eq in E.
    destruct (Z.eqb (id x) j) eqn:E2; [|exact IH].
    apply Z.eqb_eq in E2. congruence.
  - destruct (Z.eqb (id x) j); [reflexivity | exact IH].
Qed.

Lemma findById_filter_same (i : Z) (db : Recordings) :
  findById i (filter (fun x => negb (Z.eqb (id x) i)) db) = None.
Proof.
  unfold findById.
  destruct (find _ (filter _ db)) as [x|] eqn:E; [|reflexivity].
  apply find_some in E. destruct E as [Hin Hid].
  apply filter_In in Hin. destruct Hin as [_ Hn].
  rewrite Hid in Hn. discriminate Hn.
Qed.

(** X24. [deleteOne] answers true only after removing the recording with the
    id asked for, on which the user has the delete permission, and then
    every other recording is still there; when it answers false or throws
    the table is as before. *)
Theorem deleteOne_removes_only_that_recording (i : Z) (db : Recordings) :
  match fst (deleteOne p i db) with
  | QueryBuilder.Returned true =>
      findById i (snd (deleteOne p i db)) = None
      /\ (forall j, j <> i ->
            findById j (snd (deleteOne p i db)) = findById j db)
      /\ exists row, In row db /\ id row = i
                     /\ In Perms.DELETE (getUserPermissions p row)
  | _ => snd (deleteOne p i db) = db
  end.
Proof.
  unfold deleteOne.
  destruct (get p i Perms.DELETE None (mkFilterOptions None) db)
    as [[recording|]|e] eqn:Eg; simpl; try reflexivity.
  destruct (get_returned_row _ _ _ _ _ _ Eg)
    as (row & Hin & Hid & Hid' & Hperm).
  rewrite Hid'. split; [apply findById_filter_same|].
  split; [intros j Hj; now apply findById_filter_other|].
  eauto.
Qed.

End Access.

(** Witness of [get_returns_permitted]: a user of group 7, with no global
    flag and no device. *)
Lemma get_returns_permitted_witness :
  exists row,
    In row [with_others [("GroupId", JNum 7); ("DeviceId", JNum 3)]
              (audioClaimed 1 None)]
    /\ id row = 1
    /\ In Perms.VIEW
         (getUserPermissions
            (mkPrincipal (mkUser false false)
               (fun g => opt_Z_eqb g 7) (fun _ => false) [7] [])
            row).
Proof.
  destruct (get_returns_permitted
              (mkPrincipal (mkUser false false)
                 (fun g => opt_Z_eqb g 7) (fun _ => false) [7] [])
              1 Perms.VIEW None (mkFilterOptions None)
              [with_others [("GroupId", JNum 7); ("DeviceId", JNum 3)]
                 (audioClaimed 1 None)]
              _ eq_refl)
    as (row & H1 & H2 & _ & _ & H3 & _).
  exists row. auto.
Defined.

(** Witness of [public_recording_listed_but_refused]. *)
Lemma public_recording_listed_but_refused_witness :
  passes
    (recordingsFor
       (mkPrincipal (mkUser false false) (fun _ => false) (fun _ => false)
          [] []))
    (with_others [("public", JBool true); ("DeviceId", JNum 3)]
       (audioPending 1 None)) = true
  /\ get
       (mkPrincipal (mkUser false false) (fun _ => false) (fun _ => false)
          [] [])
       1 Perms.VIEW None (mkFilterOptions None)
       [with_others [("public", JBool true); ("DeviceId", JNum 3)]
          (audioPending 1 None)]
     = QueryBuilder.Thrown authorizationError.
Proof.
  apply (public_recording_listed_but_refused
           (mkPrincipal (mkUser false false) (fun _ => false)
              (fun _ => false) [] [])
           [with_others [("public", JBool true); ("DeviceId", JNum 3)]
              (audioPending 1 None)]
           (with_others [("public", JBool true); ("DeviceId", JNum 3)]
              (audioPending 1 None))
           (mkFilterOptions None));
    try reflexivity.
  - simpl. apply NoDup_cons; [intros [] | apply NoDup_nil].
  - simpl. now left.
  - simpl. discriminate.
Defined.

(* ------------------------------------------------------------------ *)
(** ** More on the precision of locations *)

Local Open Scope Q_scope.

Lemma resolution_positive (prec : Q) :
  0 < prec -> 0 < prec * 360 / 40000000.
Proof.
  intro H. unfold Qdiv. apply Qmult_lt_0_compat; [|reflexivity].
  apply Qmult_lt_0_compat; [exact H | reflexivity].
Qed.

Lemma resolution_nonzero (prec : Q) :
  0 < prec -> Qeq_bool (prec * 360 / 40000000) 0 = false.
Proof.
  intro H. destruct (Qeq_bool (prec * 360 / 40000000) 0) eqn:E; [|reflexivity].
  apply Qeq_bool_eq in E. apply resolution_positive in H.
  rewrite E in H. discriminate H.
Qed.

Lemma reduceVal_numeric (res half val : Q) :
  Qeq_bool res 0 = false ->
  reduceVal (Some res) (Some half) (Some val) <> None.
Proof.
  intro H. unfold reduceVal. simpl. rewrite H. simpl.
  now destruct (negb _).
Qed.

(** X25. For a user without global write access the filter always works with a
    resolution that is not zero: a location of two numbers stays a location
    of two numbers, none of them NaN.  A user with global write access who
    asks for the precision 0 gets NaN for both. *)
Theorem filterData_numbers_stay_numbers
    (user : User) (options : FilterOptions) (this : Recording) (x y : Q) :
  location this = Some (mkPoint [Some x; Some y]) ->
  (hasGlobalWrite user = false ->
   exists x' y',
     filterData (makeFilterOptions user options) this
     = Some (with_location (Some (mkPoint [Some x'; Some y'])) this))
  /\ (hasGlobalWrite user = true ->
      filterData (makeFilterOptions user (mkFilterOptions (Some 0))) this
      = Some (with_location (Some (mkPoint [None; None])) this)).
Proof.
  intro Hloc. split; intro Hw.
  - unfold filterData, makeFilterOptions. rewrite Hloc, Hw. simpl.
    set (prec := Qmax _ 100).
    assert (Hp : 0 < prec).
    { apply Qlt_le_trans with 100; [reflexivity | apply Q.le_max_r]. }
    pose proof (resolution_nonzero prec Hp) as Hres.
    unfold reduceLatLonPrecision. simpl.
    destruct (reduceVal (Some (prec * 360 / 40000000))
                (Some (prec * 360 / 40000000 / 2)) (Some x)) as [x'|] eqn:Ex;
      [|now apply reduceVal_numeric in Ex].
    destruct (reduceVal (Some (prec * 360 / 40000000))
                (Some (prec * 360 / 40000000 / 2)) (Some y)) as [y'|] eqn:Ey;
      [|now apply reduceVal_numeric in Ey].
    eauto.
  - unfold filterData, makeFilterOptions. rewrite Hloc, Hw. reflexivity.
Qed.

(** X27. [filterData] touches the location only, does nothing without one, and
    fails exactly when the location has not two coordinates. *)
Theorem filterData_changes_only_location
    (options : FilterOptions) (this : Recording) :
  (filterData options this = None
   <-> exists loc, location this = Some loc
                   /\ List.length (coordinates loc) <> 2%nat)
  /\ (location this = None -> filterData options this = Some this)
  /\ (forall r, filterData options this = Some r ->
        exists loc, r = with_location loc this).
Proof.
  split; [|split].
  - unfold filterData, reduceLatLonPrecision.
    destruct (location this) as [loc|].
    + destruct (Nat.eqb (List.length (coordinates loc)) 2) eqn:E.
      * apply Nat.eqb_eq in E. split; [discriminate|].
        intros (l & Hl & Hn). injection Hl as <-. contradiction.
      * apply Nat.eqb_neq in E. split; eauto.
    + split; [discriminate|]. intros (l & Hl & _). discriminate Hl.
  - intro H. unfold filterData. now rewrite H.
  - intros r. apply filterData_keeps.
Qed.

Local Close Scope Q_scope.

(** Witness of [filterData_numbers_stay_numbers]. *)
Lemma filterData_numbers_stay_numbers_witness :
  exists x' y',
    filterData
      (makeFilterOptions (mkUser false false) (mkFilterOptions (Some 0%Q)))
      (with_location (Some (mkPoint [Some (-435 # 10)%Q; Some (1726 # 10)%Q]))
         (audioPending 1 None))
    = Some (with_location (Some (mkPoint [Some x'; Some y']))
              (with_location
                 (Some (mkPoint [Some (-435 # 10)%Q; Some (1726 # 10)%Q]))
                 (audioPending 1 None))).
Proof.
  apply (proj1 (filterData_numbers_stay_numbers (mkUser false false)
                  (mkFilterOptions (Some 0%Q))
                  (with_location
                     (Some (mkPoint [Some (-435 # 10)%Q; Some (1726 # 10)%Q]))
                     (audioPending 1 None))
                  (-435 # 10)%Q (1726 # 10)%Q eq_refl)).
  reflexivity.
Defined.

(* ------------------------------------------------------------------ *)
(** ** The query of recordings *)

Lemma insertBy_In (before : Recording -> Recording -> bool)
    (x z : Recording) (l : Recordings) :
  In z (insertBy before x l) <-> z = x \/ In z l.
Proof.
  induction l as [|y l IH]; simpl.
  - intuition.
  - destruct (before y x); simpl; rewrite ?IH; intuition.
Qed.

Lemma sortBy_In (before : Recording -> Recording -> bool)
    (z : Recording) (l : Recordings) :
  In z (sortBy before l) <-> In z l.
Proof.
  induction l as [|x l IH]; simpl; [tauto|].
  rewrite insertBy_In, IH. intuition.
Qed.

Lemma In_firstn_skipn {A : Type} (n m : nat) (l : list A) (x : A) :
  In x (firstn n (skipn m l)) -> In x l.
Proof.
  intro H.
  assert (H1 : In x (skipn m l)).
  { rewrite <- (firstn_skipn n (skipn m l)). apply in_or_app. now left. }
  rewrite <- (firstn_skipn m l). apply in_or_app. now right.
Qed.

(** X28. Every row a query returns is a row of the table that passes the
    user's filter, the tag mode asked for and the access condition: a user
    without global read access only ever gets recordings that are public,
    of one of the user's groups or of one of the user's devices.  No more
    rows come back than the limit, which is 300 when none (or 0) is
    given.  This for tag names that hold no quote. *)
Theorem query_returns_only_rows_in_scope
    (p : Principal) (where_ : option (Recording -> bool))
    (tagMode : option string) (tags : option (list string))
    (offset limit : option nat)
    (order : option (Recording -> Recording -> bool))
    (plan : QueryPlan) (db : Database) (r : Recording) :
  QueryBuilder.plainNames tags = true ->
  init p where_ tagMode tags offset limit order = QueryBuilder.Returned plan ->
  In r (runQuery db plan) ->
  In r (RecordingsTable db)
  /\ (forall w, where_ = Some w -> w r = true)
  /\ (hasGlobalRead (asUser p) = false ->
      isPublic r = true
      \/ opt_Z_in (GroupId r) (getGroupsIds p) = true
      \/ opt_Z_in (DeviceId r) (getDeviceIds p) = true)
  /\ matchesTagMode db (id r) tagMode tags = Some true
  /\ (List.length (runQuery db plan)
      <= match limit with Some (S n) => S n | _ => 300 end)%nat.
Proof.
  unfold init, matchesTagMode. intros Hplain Hinit Hin. rewrite Hplain.
  destruct (QueryBuilder.handleTagMode tagMode tags) as [tagCondition|e];
    [|discriminate].
  injection Hinit as <-. unfold runQuery in *. simpl in *.
  apply In_firstn_skipn in Hin. apply sortBy_In in Hin.
  apply filter_In in Hin. destruct Hin as [Hin Hc].
  rewrite !andb_true_iff in Hc. destruct Hc as [[Hw Ha] Ht].
  split; [exact Hin|]. split.
  { intros w ->. exact Hw. }
  split.
  { intro Hr. unfold recordingsFor in Ha. rewrite Hr in Ha. simpl in Ha.
    rewrite !orb_true_iff in Ha. tauto. }
  split; [now rewrite Ht|].
  apply firstn_le_length.
Qed.

Lemma defaultBefore_spec (a b : Recording) :
  defaultBefore a b = true
  <-> coalesceDate b < coalesceDate a
      \/ (coalesceDate a = coalesceDate b /\ id b < id a).
Proof.
  unfold defaultBefore.
  rewrite orb_true_iff, andb_true_iff, !Z.ltb_lt, Z.eqb_eq. tauto.
Qed.

Lemma defaultBefore_false (a b : Recording) :
  defaultBefore a b = false
  <-> coalesceDate a < coalesceDate b
      \/ (coalesceDate a = coalesceDate b /\ id a <= id b).
Proof.
  rewrite <- not_true_iff_false, defaultBefore_spec. lia.
Qed.

Lemma insertBy_sorted (x : Recording) (l : Recordings) :
  StronglySorted (fun a b => defaultBefore b a = false) l ->
  StronglySorted (fun a b => defaultBefore b a = false)
    (insertBy defaultBefore x l).
Proof.
  induction l as [|y l IH]; intro Hs; simpl.
  - constructor; constructor.
  - inversion Hs as [|? ? Hs' Hall]; subst.
    destruct (defaultBefore y x) eqn:E.
    + constructor; [now apply IH|].
      apply Forall_forall. intros z Hz. apply insertBy_In in Hz.
      destruct Hz as [->|Hz].
      * apply defaultBefore_false. apply defaultBefore_spec in E. lia.
      * rewrite Forall_forall in Hall. now apply Hall.
    + constructor; [exact Hs|].
      constructor; [exact E|].
      rewrite Forall_forall in Hall |- *. intros z Hz.
      specialize (Hall z Hz).
      apply defaultBefore_false in E, Hall. apply defaultBefore_false. lia.
Qed.

Lemma sortBy_sorted (l : Recordings) :
  StronglySorted (fun a b => defaultBefore b a = false)
    (sortBy defaultBefore l).
Proof.
  induction l as [|x l IH]; simpl; [constructor | now apply insertBy_sorted].
Qed.

Lemma StronglySorted_skipn {A : Type} (R : A -> A -> Prop) (n : nat)
    (l : list A) :
  StronglySorted R l -> StronglySorted R (skipn n l).
Proof.
  revert l. induction n as [|n IH]; intros l Hs; [exact Hs|].
  destruct l as [|x l]; [exact Hs|]. simpl. apply IH.
  now inversion Hs.
Qed.

Lemma StronglySorted_firstn {A : Type} (R : A -> A -> Prop) (n : nat)
    (l : list A) :
  StronglySorted R l -> StronglySorted R (firstn n l).
Proof.
  revert l. induction n as [|n IH]; intros l Hs; [constructor|].
  destruct l as [|x l]; [constructor|]. simpl.
  inversion Hs as [|? ? Hs' Hall]; subst.
  constructor; [now apply IH|].
  rewrite Forall_forall in Hall |- *. intros z Hz. apply Hall.
  rewrite <- (firstn_skipn n l). apply in_or_app. now left.
Qed.

Lemma StronglySorted_split {A : Type} (R : A -> A -> Prop)
    (l1 l2 : list A) (a b : A) :
  StronglySorted R (l1 ++ a :: l2) -> In b l2 -> R a b.
Proof.
  induction l1 as [|x l1 IH]; simpl; intros Hs Hb.
  - inversion Hs as [|? ? _ Hall]; subst.
    rewrite Forall_forall in Hall. now apply Hall.
  - inversion Hs; subst. now apply IH.
Qed.

(** X29. In the default order a recording without a date counts as one of
    1970: in the rows a query returns, a recording dated after 1970 never
    comes after an undated one, and of two recordings with dates the later
    one never comes after the earlier one. *)
Theorem default_order_puts_undated_last
    (p : Principal) (where_ : option (Recording -> bool))
    (tagMode : option string) (tags : option (list string))
    (offset limit : option nat) (plan : QueryPlan) (db : Database)
    (before after : Recordings) (a b : Recording) :
  init p where_ tagMode tags offset limit None = QueryBuilder.Returned plan ->
  runQuery db plan = (before ++ a :: after)%list ->
  In b after ->
  match recordingDateTime a, recordingDateTime b with
  | None, Some d => d <= 0
  | Some da, Some d => d <= da
  | _, None => True
  end.
Proof.
  unfold init. intros Hinit Hrun Hb.
  destruct (QueryBuilder.handleTagMode tagMode tags) as [tagCondition|e];
    [|discriminate].
  injection Hinit as <-. unfold runQuery in Hrun. simpl in Hrun.
  match type of Hrun with
  | firstn ?n (skipn ?m (sortBy _ ?l)) = _ =>
      pose proof (StronglySorted_firstn _ n _
                    (StronglySorted_skipn _ m _ (sortBy_sorted l))) as Hs
  end.
  rewrite Hrun in Hs.
  pose proof (StronglySorted_split _ _ _ _ _ Hs Hb) as Hab.
  simpl in Hab. apply defaultBefore_false in Hab.
  unfold coalesceDate in Hab.
  destruct (recordingDateTime a), (recordingDateTime b); try exact I; lia.
Qed.

(** Witness of [query_returns_only_rows_in_scope]: a user of group 7 asks
    for everything and gets the recording of that group. *)
Lemma query_returns_only_rows_in_scope_witness :
  In (with_others [("GroupId", JNum 7)] (audioPending 1 None))
     (RecordingsTable
        (mkDatabase
           [with_others [("GroupId", JNum 7)] (audioPending 1 None);
            with_others [("GroupId", JNum 8)] (audioPending 2 None)]
           [] [] []))
  /\ opt_Z_in (GroupId (with_others [("GroupId", JNum 7)] (audioPending 1 None)))
       [7] = true.
Proof.
  destruct (query_returns_only_rows_in_scope
              (mkPrincipal (mkUser false false) (fun g => opt_Z_eqb g 7)
                 (fun _ => false) [7] [])
              None None None None None None
              (mkQueryPlan (fun _ => true)
                 (Some (mkAccessCondition [7] []))
                 QueryBuilder.PEmpty None 300 0)
              (mkDatabase
                 [with_others [("GroupId", JNum 7)] (audioPending 1 None);
                  with_others [("GroupId", JNum 8)] (audioPending 2 None)]
                 [] [] [])
              (with_others [("GroupId", JNum 7)] (audioPending 1 None))
              eq_refl eq_refl (or_introl eq_refl))
    as (H1 & _ & H2 & _).
  split; [exact H1|].
  destruct (H2 eq_refl) as [H|[H|H]]; [discriminate H | exact H | discriminate H].
Defined.

(** Witness of [default_order_puts_undated_last]: the later recording
    comes first. *)
Lemma default_order_puts_undated_last_witness :
  runQuery
    (mkDatabase [audioPending 1 (Some 20); audioPending 2 (Some 50)] [] [] [])
    (mkQueryPlan (fun _ => true) None QueryBuilder.PEmpty None 300 0)
  = [audioPending 2 (Some 50); audioPending 1 (Some 20)]
  /\ 20 <= 50.
Proof.
  split; [reflexivity|].
  exact (default_order_puts_undated_last
           (mkPrincipal (mkUser true true) (fun _ => false) (fun _ => false)
              [] [])
           None None None None None
           (mkQueryPlan (fun _ => true) None QueryBuilder.PEmpty None 300 0)
           (mkDatabase [audioPending 1 (Some 20); audioPending 2 (Some 50)]
              [] [] [])
           [] [audioPending 1 (Some 20)] (audioPending 2 (Some 50))
           (audioPending 1 (Some 20)) eq_refl eq_refl (or_introl eq_refl)).
Defined.

(* ------------------------------------------------------------------ *)
(** ** GET /api/fileProcessing *)

(** X30. The handler that hands out jobs never raises: it answers 204 and
    leaves the table alone, or 200 with a recording of the type and state
    asked for that carries the new job key and start time. *)
Theorem getFileProcessing_answers
    (dbError : option string) (uuid : string) (now savedAt : Z)
    (ty st : string) (db : Recordings) :
  match fst (getFileProcessing dbError uuid now savedAt ty st db) with
  | NoContent =>
      snd (getFileProcessing dbError uuid now savedAt ty st db) = db
  | JobFound recording =>
      type recording = Some ty
      /\ processingState recording = Some st
      /\ jobKey recording = Some uuid
      /\ processingStartTime recording = Some now
      /\ exists row, In row db /\ id row = id recording
                     /\ processingStartTime row = None
  | JobRaised _ => False
  end.
Proof.
  unfold getFileProcessing, getOneForProcessing, claimTransaction.
  destruct dbError as [e|]; simpl; [reflexivity|].
  pose proof (findOneForProcessing_spec ty st db) as Hspec.
  destruct (findOneForProcessing ty st db) as [found|]; simpl;
    [|reflexivity].
  destruct Hspec as (Hin & Hc & _).
  apply claimable_fields in Hc. destruct Hc as (Hty & Hst & Hpst).
  repeat split; auto. exists found. auto.
Qed.
